(** * Credential and token lifecycle of the auth controller

    A shallow embedding of [src/controllers/authController.ts]: the four
    Express handlers [register], [login], [socialLogin] and [refreshToken],
    written as programs over the calls they make (bcrypt, jsonwebtoken, the
    Sequelize [User] model, the Express response), an interpreter for these
    calls, and the properties of the handlers. *)

From stdpp Require Import gmap strings list fin_maps.
From Stdlib Require Import ZArith Ascii String.

Local Open Scope string_scope.
Local Open Scope Z_scope.

(** ** JavaScript values and plain objects *)

(** The scalar JSON values a request body, a table row or a token payload
    holds. Nested objects and arrays are not modelled: every column the
    handlers touch is scalar. *)
Inductive value : Type :=
| VUndef
| VNull
| VBool (b : bool)
| VNum (n : Z)
| VStr (s : string).

Global Instance value_eq_dec : EqDecision value.
Proof. solve_decision. Defined.

Global Instance value_inhabited : Inhabited value := populate VUndef.

(** A plain object: [req.body], a row's [dataValues], a JWT payload. *)
Abbreviation obj := (gmap string value).

(** [o.k]: reading a key that is absent gives [undefined]. *)
Definition get (o : obj) (k : string) : value := default VUndef (o !! k).

(** JavaScript truthiness, as used by [if (!refreshToken)]. *)
Definition truthy (v : value) : bool :=
  match v with
  | VUndef | VNull => false
  | VBool b => b
  | VNum n => negb (Z.eqb n 0)
  | VStr s => negb (String.eqb s "")
  end.

(** ** [String.prototype.trim] and [toLowerCase]

    Strings are byte strings; the white space and the letters outside ASCII
    are left as they are. *)
Definition is_white_space (c : ascii) : bool :=
  let n := nat_of_ascii c in
  (Nat.eqb n 9 || Nat.eqb n 10 || Nat.eqb n 11 || Nat.eqb n 12
   || Nat.eqb n 13 || Nat.eqb n 32)%bool.

Fixpoint trimStart (s : string) : string :=
  match s with
  | EmptyString => EmptyString
  | String c s' => if is_white_space c then trimStart s' else s
  end.

Fixpoint trimEnd (s : string) : string :=
  match s with
  | EmptyString => EmptyString
  | String c s' =>
      match trimEnd s' with
      | EmptyString => if is_white_space c then EmptyString
                       else String c EmptyString
      | t => String c t
      end
  end.

Definition trim (s : string) : string := trimEnd (trimStart s).

Definition lower_char (c : ascii) : ascii :=
  let n := nat_of_ascii c in
  if (Nat.leb 65 n && Nat.leb n 90)%bool then ascii_of_nat (n + 32) else c.

Fixpoint toLowerCase (s : string) : string :=
  match s with
  | EmptyString => EmptyString
  | String c s' => String (lower_char c) (toLowerCase s')
  end.

(** ** Exceptions and responses *)

Record exn : Type := Error { exn_name : string; exn_message : string }.

Global Instance exn_eq_dec : EqDecision exn.
Proof. solve_decision. Defined.

(** A field of a JSON response body: a scalar, or one nested plain object
    (the [user] of the register response). *)
Inductive field : Type :=
| FVal (v : value)
| FObj (o : obj).

Global Instance field_eq_dec : EqDecision field.
Proof. solve_decision. Defined.

Record response : Type := Response { status : Z; body : gmap string field }.

Global Instance response_eq_dec : EqDecision response.
Proof. solve_decision. Defined.

(** [{error: msg}] and [{message: msg}] *)
Definition error_body (msg : string) : gmap string field :=
  {[ "error" := FVal (VStr msg) ]}.
Definition message_body (msg : string) : gmap string field :=
  {[ "message" := FVal (VStr msg) ]}.

(** ** The calls a handler makes

    Every call answers with a value or throws; the answer type is the index. *)
Inductive eff : Type -> Type :=
| BcryptHash (s : value) : eff string
| BcryptCompare (s hash : value) : eff bool
| JwtVerify (token : value) : eff obj
| GenerateTokens (user : obj) : eff (string * string)
| FindOne (email : value) : eff (option obj)
| FindByPk (id : value) : eff (option obj)
| Create (values : obj) : eff obj
| Update (values : obj) (id : value) : eff nat
| FindOrCreate (email : value) (defaults : obj) : eff (obj * bool)
| Send (st : Z) (b : gmap string field) : eff unit.

Inductive call : Type :=
| Call (X : Type) (c : eff X).

Arguments Call {X} c.

(** ** Handlers as programs

    An [async] function is a tree of calls: each node is one call and the
    continuation receives its answer, or the exception it threw. *)
Inductive prog (A : Type) : Type :=
| Ret (a : A)
| Throw (e : exn)
| Vis {X : Type} (c : eff X) (k : exn + X -> prog A).

Arguments Ret {A} a.
Arguments Throw {A} e.
Arguments Vis {A X} c k.

Fixpoint bind {A B : Type} (p : prog A) (f : A -> prog B) : prog B :=
  match p with
  | Ret a => f a
  | Throw e => Throw e
  | Vis c k => Vis c (fun r => bind (k r) f)
  end.

(** [try { p } catch (error) { h error }] *)
Fixpoint try_catch {A : Type} (p : prog A) (h : exn -> prog A) : prog A :=
  match p with
  | Ret a => Ret a
  | Throw e => h e
  | Vis c k => Vis c (fun r => try_catch (k r) h)
  end.

(** Make a call and rethrow what it throws. *)
Definition perform_call {X : Type} (c : eff X) : prog X :=
  Vis c (fun r => match r with inl e => Throw e | inr x => Ret x end).

Notation "'let!' x ':=' c 'in' k" := (bind c (fun x => k))
  (at level 10, x pattern, c at level 100, k at level 200,
   format "'[v' 'let!'  x  ':='  c  'in' '/' k ']'").
Notation "c ;; k" := (bind c (fun _ => k))
  (at level 100, k at level 200, right associativity).

(** ** The exceptions thrown by the libraries *)

Definition typeof (v : value) : string :=
  match v with
  | VUndef => "undefined"
  | VNull => "object"
  | VBool _ => "boolean"
  | VNum _ => "number"
  | VStr _ => "string"
  end.

Definition dquote : string := String (ascii_of_nat 34) EmptyString.

Definition type_error (msg : string) : exn := Error "TypeError" msg.
Definition illegal_arguments (a b : string) : exn :=
  Error "Error" ("Illegal arguments: " ++ a ++ ", " ++ b).
Definition jwt_error (msg : string) : exn := Error "JsonWebTokenError" msg.
Definition invalid_where (k : string) : exn :=
  Error "Error" ("WHERE parameter " ++ dquote ++ k ++ dquote ++ " has invalid "
                 ++ dquote ++ "undefined" ++ dquote ++ " value").
Definition unique_constraint_error : exn :=
  Error "SequelizeUniqueConstraintError" "Validation error".
Definition headers_sent : exn :=
  Error "Error [ERR_HTTP_HEADERS_SENT]"
        "Cannot set headers after they are sent to the client".

(** ** The handlers of [authController.ts] *)

(** [res.status(st).json(b)] *)
Definition respond (st : Z) (b : gmap string field) : prog unit :=
  perform_call (Send st b).

(** [userData.email.trim().toLowerCase()]: a [TypeError] unless the email
    is a string. *)
Definition normalize_email (v : value) : prog string :=
  match v with
  | VStr s => Ret (toLowerCase (trim s))
  | VUndef =>
      Throw (type_error "Cannot read properties of undefined (reading 'trim')")
  | VNull =>
      Throw (type_error "Cannot read properties of null (reading 'trim')")
  | _ => Throw (type_error "userData.email.trim is not a function")
  end.

(** [{id: u.id, name: u.name, email: u.email, role: u.role}] *)
Definition userForToken (u : obj) : obj :=
  {[ "id" := get u "id"; "name" := get u "name";
     "email" := get u "email"; "role" := get u "role" ]}.

(** [{message: "Login successful", accessToken, refreshToken}] *)
Definition login_body (accessToken refreshToken : string)
  : gmap string field :=
  {[ "message" := FVal (VStr "Login successful");
     "accessToken" := FVal (VStr accessToken);
     "refreshToken" := FVal (VStr refreshToken) ]}.

(** [{message: "User created successfully", user}] *)
Definition register_body (user : obj) : gmap string field :=
  {[ "message" := FVal (VStr "User created successfully");
     "user" := FObj user ]}.

(** The two failures of [register]. *)
Definition exists_body : gmap string field :=
  error_body "User with this email already exists".
Definition failed_body : gmap string field :=
  error_body "An error occurred while creating the user".

(** The object handed to [User.create]:
    [{...userData, email, password: hashedPassword}] *)
Definition register_values (userData : obj) (email hashedPassword : string)
  : obj :=
  <["password" := VStr hashedPassword]> (<["email" := VStr email]> userData).

(** The [try] block of [register], from the existence check on. *)
Definition register_try (userData : obj) (email hashedPassword : string)
  : prog unit :=
  let! userExists := perform_call (FindOne (VStr email)) in
  match userExists with
  | Some _ => respond 400 exists_body
  | None =>
      let! result :=
        perform_call (Create (register_values userData email hashedPassword)) in
      let user := delete "password" result in
      respond 201 (register_body user)
  end.

Definition register_catch (_ : exn) : prog unit :=
  respond 500 failed_body.

Definition register (userData : obj) : prog unit :=
  let! email := normalize_email (get userData "email") in
  let! hashedPassword := perform_call (BcryptHash (get userData "password")) in
  try_catch (register_try userData email hashedPassword) register_catch.

Definition login (body : obj) : prog unit :=
  let email := get body "email" in
  let password := get body "password" in
  try_catch
    (let! user := perform_call (FindOne email) in
     match user with
     | None => respond 404 (error_body "User not found")
     | Some user =>
         let! passwordMatch :=
           perform_call (BcryptCompare password (get user "password")) in
         if negb passwordMatch then
           respond 401 (error_body "Invalid credentials")
         else
           let userData := delete "password" user in
           let! tokens :=
             perform_call (GenerateTokens (userForToken userData)) in
           let '(accessToken, refreshToken) := tokens in
           let! result :=
             perform_call (Update {[ "refresh_token" := VStr refreshToken ]}
                                  (get user "id")) in
           (* [if (!result)]: the answer of [update] is an array, never
              falsy, so the 500 branch is never taken *)
           respond 200 (login_body accessToken refreshToken)
     end)
    (fun error => respond 400 (error_body (exn_message error))).

Definition socialLogin (body : obj) : prog unit :=
  let email := get body "email" in
  let name := get body "name" in
  try_catch
    (let! found :=
       perform_call (FindOrCreate email {[ "name" := name; "email" := email ]}) in
     let '(user, created) := found in
     (* [if (!user)]: [findOrCreate] always answers with a row *)
     let! tokens := perform_call (GenerateTokens (userForToken user)) in
     let '(accessToken, refreshToken) := tokens in
     perform_call (Update {[ "refreshToken" := VStr refreshToken ]}
                          (get user "id")) ;;
     respond 200 (login_body accessToken refreshToken))
    (fun error => respond 400 (error_body (exn_message error))).

(** The [try] block of [refreshToken]. *)
Definition refreshToken_try (token : value) : prog unit :=
  let! payload := perform_call (JwtVerify token) in
  let! result := perform_call (FindByPk (get payload "id")) in
  let storedToken :=
    match result with Some u => get u "refreshToken" | None => VUndef end in
  (if bool_decide (storedToken ≠ token) then
     respond 403 (message_body "Invalid refresh token")
   else Ret tt) ;;
  let! tokens := perform_call (GenerateTokens payload) in
  let '(accessToken, newRefreshToken) := tokens in
  perform_call (Update {[ "refreshToken" := VStr newRefreshToken ]}
                       (get payload "id")) ;;
  respond 200 {[ "accessToken" := FVal (VStr accessToken);
                 "refreshToken" := FVal (VStr newRefreshToken) ]}.

Definition refreshToken_catch (_ : exn) : prog unit :=
  respond 403 (message_body "Invalid or expired refresh token").

Definition refreshToken (body : obj) : prog unit :=
  let token := get body "refreshToken" in
  (if negb (truthy token) then
     respond 401 (message_body "Refresh token required")
   else Ret tt) ;;
  try_catch (refreshToken_try token) refreshToken_catch.

(** ** The world a handler runs in *)

(** The shared state: the rows of the users table, the clock (seconds) read
    by the token codec, and the state of the random generator bcrypt draws
    its salts from. *)
Record world : Type := World { users : list obj; clock : Z; rng : N }.

Definition with_users (us : list obj) (w : world) : world :=
  World us (clock w) (rng w).

(** How an [async] handler ends: its promise resolves, or rejects with an
    exception nothing catches. *)
Inductive outcome : Type :=
| Resolved
| Rejected (e : exn).

Record result : Type := Result {
  outcome_of : outcome;
  world_of : world;
  response_of : option response;   (* what the client receives *)
  trace_of : list call             (* the calls made, in order *)
}.

(** The world at a later time. *)
Definition at_time (t : Z) (w : world) : world := World (users w) t (rng w).

(** First row satisfying a test: [findOne] and [findByPk] return the first
    match. *)
Definition find_by (k : string) (v : value) (us : list obj) : option obj :=
  List.find (fun u => bool_decide (get u k = v)) us.

Definition id_num (u : obj) : Z :=
  match get u "id" with VNum n => n | _ => 0 end.

(** The next value of the auto-increment primary key. *)
Definition next_id (us : list obj) : Z :=
  1 + foldr (fun u m => Z.max (id_num u) m) 0 us.

Section Controller.

(** Modelled from the spec: the [User] model ([src/models/User.ts] is not
    part of the sources). Section 3 gives a user record the attributes id,
    email, name, password hash, role (with a default) and current refresh
    token, with the email unique and the id unique; the attribute names and
    the defaults are those of the missing model. Keys that are not
    attributes are dropped when a row is built or updated, and a value of
    [undefined] is ignored, as Sequelize does. *)
Variable attributes : list string.
Variable defaults : obj.

(** bcryptjs: [hash] draws a salt from the random generator, [compare]
    checks a plain text against a digest. *)
Variable bcrypt_hash : N -> string -> string.
Variable bcrypt_compare : string -> string -> bool.

(** jsonwebtoken: [verify] with [JWT_REFRESH_SECRET] at the given time;
    [None] when the token is malformed, badly signed or expired. *)
Variable jwt_verify : Z -> string -> option obj.

(** Modelled from the spec: [generateTokens] of [src/helper] (not part of
    the sources). Section 4.4, issue: signs an access token and a refresh
    token carrying the claims it is given, at the given time; it returns
    [(accessToken, refreshToken)]. *)
Variable generateTokens : Z -> obj -> string * string.

Definition is_attribute (k : string) : bool := bool_decide (k ∈ attributes).

(** The part of an object that can be written to a row. *)
Definition assignable (o : obj) : obj :=
  filter (fun kv => is_attribute kv.1 = true ∧ kv.2 ≠ VUndef) o.

(** Two rows clash when they have the same id or the same (non-null)
    email. *)
Definition clashes (row u : obj) : bool :=
  bool_decide (get u "id" = get row "id")
  || match get row "email" with
     | VUndef | VNull => false
     | e => bool_decide (get u "email" = e)
     end.

(** A row with every column [NULL]. *)
Definition null_row : obj :=
  list_to_map ((fun k => (k, VNull)) <$> attributes).

(** The row [User.create(values)] builds and reads back: the assignable
    values, the defaults for what is not given, [null] for the other
    columns, and the given or next id. *)
Definition build_row (values : obj) (us : list obj) : obj :=
  let id := match get values "id" with
            | VUndef | VNull => VNum (next_id us)
            | v => v
            end in
  <["id" := id]> (assignable values ∪ defaults ∪ null_row).

Definition store_create (values : obj) (us : list obj)
  : exn + obj * list obj :=
  let row := build_row values us in
  if existsb (clashes row) us then inl unique_constraint_error
  else inr (row, (us ++ [row])%list).

(** [User.update(values, {where: {id}})]: the assignable values are merged
    into every row with that id; the answer is the number of rows. *)
Definition update_row (values : obj) (id : value) (u : obj) : obj :=
  if bool_decide (get u "id" = id) then assignable values ∪ u else u.

Definition store_update (values : obj) (id : value) (us : list obj)
  : exn + nat * list obj :=
  match id with
  | VUndef => inl (invalid_where "id")
  | _ => inr (List.length (List.filter (fun u => bool_decide (get u "id" = id)) us),
              map (update_row values id) us)
  end.

(** [bcrypt.hash(s, 10)] and [bcrypt.compare(s, hash)]: both reject
    arguments that are not strings. *)
Definition hash_call (s : value) (salt : N) : exn + string :=
  match s with
  | VStr p => inr (bcrypt_hash salt p)
  | _ => inl (illegal_arguments (typeof s) "number")
  end.

Definition compare_call (s hash : value) : exn + bool :=
  match s, hash with
  | VStr p, VStr h => inr (bcrypt_compare p h)
  | _, _ => inl (illegal_arguments (typeof s) (typeof hash))
  end.

(** [jwt.verify(token, secret)] *)
Definition verify_call (now : Z) (token : value) : exn + obj :=
  if truthy token then
    match token with
    | VStr t =>
        match jwt_verify now t with
        | Some payload => inr payload
        | None => inl (jwt_error "invalid token")
        end
    | _ => inl (jwt_error "jwt must be a string")
    end
  else inl (jwt_error "jwt must be provided").

(** [User.findOne({where: {email}})] *)
Definition findOne_call (email : value) (us : list obj) : exn + option obj :=
  match email with
  | VUndef => inl (invalid_where "email")
  | _ => inr (find_by "email" email us)
  end.

(** [User.findByPk(id)]: no row for a missing key. *)
Definition findByPk_call (id : value) (us : list obj) : option obj :=
  match id with
  | VUndef | VNull => None
  | _ => find_by "id" id us
  end.

(** [User.findOrCreate({where: {email}, defaults})] *)
Definition findOrCreate_call (email : value) (dflt : obj) (us : list obj)
  : exn + (obj * bool) * list obj :=
  match findOne_call email us with
  | inl e => inl e
  | inr (Some u) => inr (u, false, us)
  | inr None =>
      match store_create (<["email" := email]> dflt) us with
      | inl e => inl e
      | inr (row, us') => inr (row, true, us')
      end
  end.

(** One call, on the shared world and on this request's response: the
    answer or the exception, the new world, the response sent so far. *)
Definition perform {X : Type} (c : eff X) (w : world) (sent : option response)
  : (exn + X) * world * option response :=
  match c in eff X return (exn + X) * world * option response with
  | BcryptHash s =>
      match hash_call s (rng w) with
      | inl e => (inl e, w, sent)
      | inr h => (inr h, World (users w) (clock w) (N.succ (rng w)), sent)
      end
  | BcryptCompare s hash => (compare_call s hash, w, sent)
  | JwtVerify token => (verify_call (clock w) token, w, sent)
  | GenerateTokens user => (inr (generateTokens (clock w) user), w, sent)
  | FindOne email => (findOne_call email (users w), w, sent)
  | FindByPk id => (inr (findByPk_call id (users w)), w, sent)
  | Create values =>
      match store_create values (users w) with
      | inl e => (inl e, w, sent)
      | inr (row, us) => (inr row, with_users us w, sent)
      end
  | Update values id =>
      match store_update values id (users w) with
      | inl e => (inl e, w, sent)
      | inr (n, us) => (inr n, with_users us w, sent)
      end
  | FindOrCreate email dflt =>
      match findOrCreate_call email dflt (users w) with
      | inl e => (inl e, w, sent)
      | inr (found, us) => (inr found, with_users us w, sent)
      end
  | Send st b =>
      match sent with
      | None => (inr tt, w, Some (Response st b))
      | Some _ => (inl headers_sent, w, sent)
      end
  end.

(** Run a handler to its end. *)
Fixpoint run (p : prog unit) (w : world) (sent : option response)
    (tr : list call) : result :=
  match p with
  | Ret _ => Result Resolved w sent tr
  | Throw e => Result (Rejected e) w sent tr
  | Vis c k =>
      let '(a, w', sent') := perform c w sent in
      run (k a) w' sent' (tr ++ [Call c])%list
  end.

(** A request handled alone, from an empty response. *)
Definition handle (p : prog unit) (w : world) : result := run p w None [].

(** *** Requests in flight together

    Each request has its own response; the world is shared. A request runs
    one call at a time, and another request may run in between. *)
Record thread : Type := Thread {
  code : prog unit;
  sent_of : option response;
  calls_of : list call
}.

Definition spawn (p : prog unit) : thread := Thread p None [].

Definition step (t : thread) (w : world) : thread * world :=
  match code t with
  | Vis c k =>
      let '(a, w', sent') := perform c w (sent_of t) in
      (Thread (k a) sent' (calls_of t ++ [Call c])%list, w')
  | _ => (t, w)
  end.

Fixpoint steps (n : nat) (t : thread) (w : world) : thread * world :=
  match n with
  | O => (t, w)
  | S n' => let '(t', w') := step t w in steps n' t' w'
  end.

(** Run the thread to its end, alone. *)
Definition finish (t : thread) (w : world) : result :=
  run (code t) w (sent_of t) (calls_of t).

(** Two requests under a schedule: [true] lets the first make its next
    call, [false] the second. Node switches requests only at an [await];
    a schedule that switches before a synchronous call ([jwt.verify],
    [generateTokens], [res.json]) has no counterpart there, and none is
    used below. *)
Fixpoint interleave (schedule : list bool) (t1 t2 : thread) (w : world)
  : thread * thread * world :=
  match schedule with
  | [] => (t1, t2, w)
  | true :: s => let '(t1', w') := step t1 w in interleave s t1' t2 w'
  | false :: s => let '(t2', w') := step t2 w in interleave s t1 t2' w'
  end.

End Controller.

(** ** A concrete instance

    A small users model, a transparent digest and a transparent token
    format, to run the handlers on concrete requests. *)
Module Toy.

Definition attributes : list string :=
  ["id"; "name"; "email"; "password"; "role"; "refreshToken"].

(** The same model with the snake-case column name as attribute. *)
Definition attributes_snake : list string :=
  ["id"; "name"; "email"; "password"; "role"; "refresh_token"].

Definition defaults : obj := {[ "role" := VStr "user" ]}.

Fixpoint digits (fuel : nat) (n : N) (acc : string) : string :=
  match fuel with
  | O => acc
  | S fuel' =>
      let acc' := String (ascii_of_N (48 + n mod 10)) acc in
      if (n <? 10)%N then acc' else digits fuel' (n / 10)%N acc'
  end.

Definition show_N (n : N) : string := digits (S (N.to_nat (N.log2 n))) n "".

Fixpoint read_N (s : string) (acc : N) : option N :=
  match s with
  | EmptyString => Some acc
  | String c s' =>
      let n := N_of_ascii c in
      if ((48 <=? n) && (n <=? 57))%N then read_N s' (10 * acc + (n - 48))%N
      else None
  end.

Fixpoint split_on (sep : ascii) (s : string) : list string :=
  match s with
  | EmptyString => [EmptyString]
  | String c s' =>
      if Ascii.eqb c sep then EmptyString :: split_on sep s'
      else match split_on sep s' with
           | h :: t => String c h :: t
           | [] => [String c EmptyString]
           end
  end.

(** The digest keeps the salt and the plain text apart by a [$]. *)
Definition bcrypt_hash (salt : N) (p : string) : string :=
  "$2a$10$" ++ show_N salt ++ "$" ++ p.

Definition bcrypt_compare (p h : string) : bool :=
  match split_on "$" h with
  | [_; _; _; _; q] => String.eqb p q
  | _ => false
  end.

Definition show_value (v : value) : string :=
  match v with
  | VUndef => "u"
  | VNull => "z"
  | VBool b => if b then "t" else "f"
  | VNum n => "n" ++ show_N (Z.to_N n)
  | VStr s => "s" ++ s
  end.

Definition read_value (s : string) : value :=
  match s with
  | String "z" EmptyString => VNull
  | String "t" EmptyString => VBool true
  | String "f" EmptyString => VBool false
  | String "n" d => match read_N d 0 with Some n => VNum (Z.of_N n) | None => VUndef end
  | String "s" t => VStr t
  | _ => VUndef
  end.

Definition accessTTL : Z := 900.
Definition refreshTTL : Z := 604800.

(** [kind|iat|id|name|email|role] *)
Definition sign (kind : string) (now : Z) (claims : obj) : string :=
  kind ++ "|" ++ show_N (Z.to_N now)
  ++ "|" ++ show_value (get claims "id")
  ++ "|" ++ show_value (get claims "name")
  ++ "|" ++ show_value (get claims "email")
  ++ "|" ++ show_value (get claims "role").

Definition generateTokens (now : Z) (claims : obj) : string * string :=
  (sign "A" now claims, sign "R" now claims).

Definition jwt_verify (now : Z) (token : string) : option obj :=
  match split_on "|" token with
  | [kind; iat; id; name; email; role] =>
      match read_N iat 0 with
      | Some iat =>
          let iat := Z.of_N iat in
          if (String.eqb kind "R" && (now <? iat + refreshTTL))%bool then
            Some {[ "id" := read_value id; "name" := read_value name;
                    "email" := read_value email; "role" := read_value role;
                    "iat" := VNum iat; "exp" := VNum (iat + refreshTTL) ]}
          else None
      | None => None
      end
  | _ => None
  end.

Definition serve : prog unit -> world -> result :=
  handle attributes defaults bcrypt_hash bcrypt_compare jwt_verify
         generateTokens.

Definition serve_snake : prog unit -> world -> result :=
  handle attributes_snake defaults bcrypt_hash bcrypt_compare jwt_verify
         generateTokens.

Definition interleave
  : list bool -> thread -> thread -> world -> thread * thread * world :=
  interleave attributes defaults bcrypt_hash bcrypt_compare jwt_verify
             generateTokens.

Definition empty_world : world := World [] 1000 0.

(** *** Ann registers with an untidy email, then logs in *)

Definition ann : obj :=
  {[ "email" := VStr " A@B.com "; "password" := VStr "secret123";
     "name" := VStr "Ann" ]}.

Definition registered : world := world_of (serve (register ann) empty_world).
Definition registered_snake : world :=
  world_of (serve_snake (register ann) empty_world).

Definition ann_row : obj :=
  {[ "id" := VNum 1; "name" := VStr "Ann"; "email" := VStr "a@b.com";
     "password" := VStr "$2a$10$0$secret123"; "role" := VStr "user";
     "refreshToken" := VNull ]}.

Definition ann_login : obj :=
  {[ "email" := VStr "a@b.com"; "password" := VStr "secret123" ]}.

Definition ann_wrong_password : obj :=
  {[ "email" := VStr "a@b.com"; "password" := VStr "letmein" ]}.

Definition nobody : obj :=
  {[ "email" := VStr "nobody@b.com"; "password" := VStr "letmein" ]}.

(** The address as Ann typed it when she registered, without the spaces. *)
Definition ann_upper_login : obj :=
  {[ "email" := VStr "A@B.com"; "password" := VStr "secret123" ]}.

Definition ann_social : obj :=
  {[ "email" := VStr "A@B.com"; "name" := VStr "Ann" ]}.

(** A registration that names its own role. *)
Definition mallory : obj :=
  {[ "email" := VStr "m@x.org"; "password" := VStr "pw";
     "role" := VStr "admin"; "nickname" := VStr "mal" ]}.

Definition ann_access : string := "A|2000|n1|sAnn|sa@b.com|suser".
Definition ann_refresh : string := "R|2000|n1|sAnn|sa@b.com|suser".

Definition logged_in : world :=
  world_of (serve (login ann_login) (at_time 2000 registered)).
Definition logged_in_snake : world :=
  world_of (serve_snake (login ann_login) (at_time 2000 registered_snake)).

Definition present (token : string) : obj :=
  {[ "refreshToken" := VStr token ]}.

Definition mallory_values : obj :=
  {[ "email" := VStr "m@x.org"; "password" := VStr "$2a$10$0$pw";
     "role" := VStr "admin"; "nickname" := VStr "mal" ]}.

Definition mallory_row : obj :=
  {[ "id" := VNum 1; "name" := VNull; "email" := VStr "m@x.org";
     "password" := VStr "$2a$10$0$pw"; "role" := VStr "admin";
     "refreshToken" := VNull ]}.

(** *** Bob signs in through social login and refreshes *)

Definition bob : obj :=
  {[ "email" := VStr "bob@x.org"; "name" := VStr "Bob" ]}.

Definition bob_session : world :=
  world_of (serve (socialLogin bob) empty_world).

Definition bob_row : obj :=
  {[ "id" := VNum 1; "name" := VStr "Bob"; "email" := VStr "bob@x.org";
     "password" := VNull; "role" := VStr "user";
     "refreshToken" := VStr "R|1000|n1|sBob|sbob@x.org|suser" ]}.

Definition bob_refresh1 : string := "R|1000|n1|sBob|sbob@x.org|suser".
Definition bob_refresh2 : string := "R|2000|n1|sBob|sbob@x.org|suser".
Definition bob_refresh3 : string := "R|3000|n1|sBob|sbob@x.org|suser".

Definition bob_access2 : string := "A|2000|n1|sBob|sbob@x.org|suser".

Definition bob_rotated : world :=
  world_of (serve (refreshToken (present bob_refresh1))
                  (at_time 2000 bob_session)).

(** Bob is made an administrator after his token was issued. *)
Definition promote (u : obj) : obj := <["role" := VStr "admin"]> u.

Definition bob_promoted : world :=
  with_users (map promote (users bob_session)) (at_time 2000 bob_session).

(** *** Two registrations of one address in flight together *)

Definition ann_again : obj :=
  {[ "email" := VStr "a@b.com"; "password" := VStr "hunter2" ]}.

(** Both hash, both check, then the first creates and answers, then the
    second. *)
Definition race : thread * thread * world :=
  interleave [true; false; true; false; true; true; false; false]
             (spawn (register ann)) (spawn (register ann_again)) empty_world.

Definition race_first : thread := race.1.1.
Definition race_second : thread := race.1.2.
Definition race_world : world := race.2.

(** The second registration once it has hashed and checked, alone. *)
Definition ann_again_checked : thread :=
  (steps attributes defaults bcrypt_hash bcrypt_compare jwt_verify
         generateTokens 2 (spawn (register ann_again)) empty_world).1.

(** *** A session whose refresh token has expired *)

Definition bob_much_later : world := at_time 700000 bob_session.

(** *** Further requests *)

(** A registration without a password. *)
Definition no_password_given : obj := {[ "email" := VStr "a@b.com" ]}.

(** A social login with the address Ann registered with a password. *)
Definition eve_as_ann : obj :=
  {[ "email" := VStr "a@b.com"; "name" := VStr "Eve" ]}.

(** A password login to Bob's account, which social login created. *)
Definition bob_password_login : obj :=
  {[ "email" := VStr "bob@x.org"; "password" := VStr "letmein" ]}.

(** What Bob's first refresh token carries. *)
Definition bob_payload : obj :=
  {[ "id" := VNum 1; "name" := VStr "Bob"; "email" := VStr "bob@x.org";
     "role" := VStr "user"; "iat" := VNum 1000; "exp" := VNum 605800 ]}.

Definition bob_at_2000 : world := at_time 2000 bob_session.

End Toy.


(** Calls that write to the users table, calls that read it, and token
    verification. *)
Definition is_write (c : call) : bool :=
  match c with
  | Call (Create _) | Call (Update _ _) | Call (FindOrCreate _ _) => true
  | _ => false
  end.

Definition is_lookup (c : call) : bool :=
  match c with
  | Call (FindOne _) | Call (FindByPk _) | Call (FindOrCreate _ _) => true
  | _ => false
  end.

Definition is_verify (c : call) : bool :=
  match c with
  | Call (JwtVerify _) => true
  | _ => false
  end.

(** What the rows hold as refresh token and as email. *)
Definition stored_tokens (w : world) : list value :=
  map (fun u => get u "refreshToken") (users w).

Definition stored_emails (w : world) : list value :=
  map (fun u => get u "email") (users w).

(** The rows that carry a given email. *)
Definition with_email (email : string) (us : list obj) : list obj :=
  List.filter (fun u => bool_decide (get u "email" = VStr email)) us.

(** The object of a [User.create] call. *)
Definition created (c : call) : option obj :=
  match c with
  | Call (Create values) => Some values
  | _ => None
  end.

(** Two refreshes in flight together: each verifies its token and reads the
    row, then the first signs, writes and answers, then the second. *)
Definition both_read_first : list bool :=
  [true; true; false; false; true; true; true; false; false; false].

(** Responses and password checks among the calls. *)
Definition is_send (c : call) : bool :=
  match c with
  | Call (Send _ _) => true
  | _ => false
  end.

Definition is_compare (c : call) : bool :=
  match c with
  | Call (BcryptCompare _ _) => true
  | _ => false
  end.

(** How many times the handler answered. *)
Definition sends (tr : list call) : nat := List.length (List.filter is_send tr).

(** No field named [password], at the top or in a nested object. *)
Definition no_password (b : gmap string field) : Prop :=
  b !! "password" = None ∧
  ∀ k o, b !! k = Some (FObj o) → o !! "password" = None.

(** [{accessToken, refreshToken}], the body of a successful refresh. *)
Definition pair_body (tokens : string * string) : gmap string field :=
  {[ "accessToken" := FVal (VStr tokens.1);
     "refreshToken" := FVal (VStr tokens.2) ]}.

(** ** Properties *)

(** Close the goals left once a run has been computed. *)
Ltac settle :=
  repeat split; intros; try discriminate; try reflexivity;
  repeat constructor.

Section Properties.

Variable attributes : list string.
Variable defaults : obj.
Variable bcrypt_hash : N -> string -> string.
Variable bcrypt_compare : string -> string -> bool.
Variable jwt_verify : Z -> string -> option obj.
Variable generateTokens : Z -> obj -> string * string.

Local Abbreviation serve :=
  (handle attributes defaults bcrypt_hash bcrypt_compare jwt_verify
          generateTokens).

Local Abbreviation perform' :=
  (perform attributes defaults bcrypt_hash bcrypt_compare jwt_verify
           generateTokens).
Local Abbreviation run' :=
  (run attributes defaults bcrypt_hash bcrypt_compare jwt_verify
       generateTokens).

(** *** Strings and tokens on examples *)

Example trim_spaces : trim " A@B.com " = "A@B.com".
Proof. reflexivity. Qed.

Example trim_inner_space : trim "  a b  " = "a b".
Proof. reflexivity. Qed.

Example lower_ascii : toLowerCase "A@B.com" = "a@b.com".
Proof. reflexivity. Qed.

Example empty_string_falsy : truthy (VStr "") = false.
Proof. reflexivity. Qed.

Example toy_digest_checks :
  Toy.bcrypt_compare "secret123" (Toy.bcrypt_hash 7 "secret123") = true ∧
  Toy.bcrypt_compare "letmein" (Toy.bcrypt_hash 7 "secret123") = false.
Proof. split; reflexivity. Qed.

Example toy_refresh_token_verifies :
  Toy.jwt_verify 2000 Toy.bob_refresh1
    = Some {[ "id" := VNum 1; "name" := VStr "Bob";
              "email" := VStr "bob@x.org"; "role" := VStr "user";
              "iat" := VNum 1000; "exp" := VNum 605800 ]} ∧
  Toy.jwt_verify 700000 Toy.bob_refresh1 = None ∧
  Toy.jwt_verify 2000 Toy.bob_access2 = None.
Proof. repeat split; vm_compute; reflexivity. Qed.

(** *** The response, once sent, stays *)

Lemma perform_sent_stable {X : Type} (c : eff X) (w : world) (resp : response) :
  (perform' c w (Some resp)).2 = Some resp.
Proof.
  destruct c; simpl; repeat case_match; reflexivity.
Qed.

Lemma run_sent_stable (p : prog unit) :
  ∀ (w : world) (resp : response) (tr : list call),
    response_of (run' p w (Some resp) tr) = Some resp.
Proof.
  induction p as [a|e|X c k IH]; intros w resp tr; simpl; try reflexivity.
  pose proof (perform_sent_stable c w resp) as Hs.
  destruct (perform' c w (Some resp)) as [[a w'] sent'].
  simpl in Hs. subst sent'. apply IH.
Qed.

(** *** Token verification *)

Lemma verify_call_falsy (now : Z) (token : value) :
  truthy token = false →
  verify_call jwt_verify now token = inl (jwt_error "jwt must be provided").
Proof. intros H. unfold verify_call. by rewrite H. Qed.

Lemma verify_call_ok (now : Z) (token : value) (payload : obj) :
  verify_call jwt_verify now token = inr payload →
  ∃ t, token = VStr t ∧ t ≠ "" ∧ jwt_verify now t = Some payload.
Proof.
  unfold verify_call. destruct (truthy token) eqn:Ht; [|done].
  destruct token as [| | | |t]; try done.
  destruct (jwt_verify now t) eqn:Hv; [|done].
  intros [= <-]. exists t. repeat split; [|done].
  intros ->. discriminate Ht.
Qed.

(** C10. A refresh whose token fails verification (malformed, badly signed
    or expired, or not a usable token at all) writes nothing: the users
    table is as it was and no writing call is made; when a token was
    presented the request ends with 403 "Invalid or expired refresh
    token". *)
Theorem refresh_invalid_token_no_write (req : obj) (w : world) :
  (∀ t, get req "refreshToken" = VStr t → jwt_verify (clock w) t = None) →
  let r := serve (refreshToken req) w in
  world_of r = w ∧
  Forall (fun c => is_write c = false) (trace_of r) ∧
  (truthy (get req "refreshToken") = true →
   outcome_of r = Resolved ∧
   response_of r =
     Some (Response 403 (message_body "Invalid or expired refresh token"))).
Proof.
  intros Hv. unfold handle, refreshToken.
  assert (∃ e, verify_call jwt_verify (clock w) (get req "refreshToken")
               = inl e) as [e He].
  { destruct (verify_call _ _ _) as [e|payload] eqn:E; [by eexists|].
    apply verify_call_ok in E as (t & Ht & _ & Hsome).
    rewrite (Hv t Ht) in Hsome. discriminate. }
  destruct (truthy (get req "refreshToken")); simpl; rewrite He; simpl;
    settle.
Qed.

(** *** The runs of [refreshToken] *)

Lemma refreshToken_run_falsy (req : obj) (w : world) :
  truthy (get req "refreshToken") = false →
  serve (refreshToken req) w =
    Result (Rejected headers_sent) w
      (Some (Response 401 (message_body "Refresh token required")))
      [Call (Send 401 (message_body "Refresh token required"));
       Call (JwtVerify (get req "refreshToken"));
       Call (Send 403 (message_body "Invalid or expired refresh token"))].
Proof.
  intros Ht. unfold handle, refreshToken. rewrite Ht. simpl.
  by rewrite (verify_call_falsy _ _ Ht).
Qed.

(** A token that verifies: the run is decided by the comparison with the
    stored token and by the update; the 403 of a mismatch does not stop the
    handler. *)
Lemma refreshToken_run_verified (req : obj) (w : world) (t : string)
    (payload : obj) :
  get req "refreshToken" = VStr t →
  t ≠ "" →
  jwt_verify (clock w) t = Some payload →
  let id := get payload "id" in
  let tokens := generateTokens (clock w) payload in
  let values : obj := {[ "refreshToken" := VStr tokens.2 ]} in
  let stored :=
    match findByPk_call id (users w) with
    | Some u => get u "refreshToken"
    | None => VUndef
    end in
  let mismatch := Response 403 (message_body "Invalid refresh token") in
  let failed :=
    Response 403 (message_body "Invalid or expired refresh token") in
  serve (refreshToken req) w =
    if bool_decide (stored ≠ VStr t) then
      match store_update attributes values id (users w) with
      | inl _ =>
          Result (Rejected headers_sent) w (Some mismatch)
            [Call (JwtVerify (VStr t)); Call (FindByPk id);
             Call (Send 403 (body mismatch)); Call (GenerateTokens payload);
             Call (Update values id); Call (Send 403 (body failed))]
      | inr (_, us) =>
          Result (Rejected headers_sent) (with_users us w) (Some mismatch)
            [Call (JwtVerify (VStr t)); Call (FindByPk id);
             Call (Send 403 (body mismatch)); Call (GenerateTokens payload);
             Call (Update values id); Call (Send 200 (pair_body tokens));
             Call (Send 403 (body failed))]
      end
    else
      match store_update attributes values id (users w) with
      | inl _ =>
          Result Resolved w (Some failed)
            [Call (JwtVerify (VStr t)); Call (FindByPk id);
             Call (GenerateTokens payload); Call (Update values id);
             Call (Send 403 (body failed))]
      | inr (_, us) =>
          Result Resolved (with_users us w)
            (Some (Response 200 (pair_body tokens)))
            [Call (JwtVerify (VStr t)); Call (FindByPk id);
             Call (GenerateTokens payload); Call (Update values id);
             Call (Send 200 (pair_body tokens))]
      end.
Proof.
  intros Hb Hne Hv. unfold handle, refreshToken. rewrite Hb.
  assert (truthy (VStr t) = true) as Ht.
  { simpl. destruct (String.eqb_spec t ""); done. }
  rewrite Ht. simpl. unfold verify_call. rewrite Ht, Hv. simpl.
  destruct (generateTokens (clock w) payload) as [accessToken newRefreshToken]
    eqn:Hg.
  case_bool_decide; simpl; rewrite Hg; simpl;
    destruct (store_update _ _ _ _) as [e|[n us]]; reflexivity.
Qed.

(** C3. A refresh request without a token answers 401 "Refresh token
    required" but does not stop there: [jwt.verify] is still called (on
    [undefined]), throws, and the [catch] block answers a second time, which
    throws in turn, so the handler's promise rejects. No row is looked up or
    written. *)
Theorem refresh_without_token_still_verifies (w : world) :
  let r := serve (refreshToken ∅) w in
  response_of r =
    Some (Response 401 (message_body "Refresh token required")) ∧
  existsb is_verify (trace_of r) = true ∧
  outcome_of r = Rejected headers_sent ∧
  existsb is_lookup (trace_of r) = false ∧
  existsb is_write (trace_of r) = false ∧
  world_of r = w.
Proof.
  intros r. subst r. rewrite refreshToken_run_falsy by reflexivity.
  repeat split.
Qed.

(** A presented token that verifies but is not the stored one: the client
    is told 403 "Invalid refresh token", and the handler goes on to sign a
    new pair and to store its refresh token on the rows with the token's
    id. *)
Lemma refresh_mismatch_still_rotates (req : obj) (w : world) (t : string)
    (payload : obj) :
  get req "refreshToken" = VStr t →
  t ≠ "" →
  jwt_verify (clock w) t = Some payload →
  get payload "id" ≠ VUndef →
  match findByPk_call (get payload "id") (users w) with
  | Some u => get u "refreshToken"
  | None => VUndef
  end ≠ VStr t →
  let r := serve (refreshToken req) w in
  let values : obj :=
    {[ "refreshToken" := VStr (generateTokens (clock w) payload).2 ]} in
  response_of r = Some (Response 403 (message_body "Invalid refresh token")) ∧
  outcome_of r = Rejected headers_sent ∧
  existsb is_write (trace_of r) = true ∧
  users (world_of r) =
    map (update_row attributes values (get payload "id")) (users w).
Proof.
  intros Hb Hne Hv Hid Hmis r values. subst r.
  rewrite (refreshToken_run_verified req w t payload Hb Hne Hv).
  rewrite bool_decide_eq_true_2 by exact Hmis.
  unfold store_update. destruct (get payload "id"); try done.
Qed.

(** C6 (as the code has it). Every successful refresh answers with the
    pair signed from the payload of the presented token: the claims of the
    new tokens are those the old token carried, whatever the fetched row
    says now. *)
Theorem refresh_success_from_payload (req : obj) (w : world)
    (resp : response) :
  response_of (serve (refreshToken req) w) = Some resp →
  status resp = 200 →
  ∃ (t : string) (payload : obj),
    get req "refreshToken" = VStr t ∧
    jwt_verify (clock w) t = Some payload ∧
    resp = Response 200 (pair_body (generateTokens (clock w) payload)).
Proof.
  intros Hr Hst.
  destruct (truthy (get req "refreshToken")) eqn:Ht.
  - destruct (verify_call jwt_verify (clock w) (get req "refreshToken"))
      as [e|payload] eqn:Hc.
    + unfold handle, refreshToken in Hr. rewrite Ht in Hr. simpl in Hr.
      rewrite Hc in Hr. simpl in Hr. injection Hr as <-. discriminate Hst.
    + apply verify_call_ok in Hc as (t & Hb & Hne & Hv).
      exists t, payload. split; [exact Hb|]. split; [exact Hv|].
      rewrite (refreshToken_run_verified req w t payload Hb Hne Hv) in Hr.
      case_bool_decide;
        destruct (store_update _ _ _ _) as [e|[n us]]; simpl in Hr;
        injection Hr as <-; try discriminate Hst.
      reflexivity.
  - rewrite (refreshToken_run_falsy req w Ht) in Hr. simpl in Hr.
    injection Hr as <-. discriminate Hst.
Qed.

(** *** The runs of [login] *)

(** C5 (as the code has it). A login whose email matches no row answers
    404 "User not found". A login whose email matches a row and whose
    password is wrong answers 401 "Invalid credentials" when the password
    of the request and the stored one are both strings, and otherwise (no
    string password in the request, or a row without a digest, such as one
    made by social login) 400 with the "Illegal arguments" message of
    bcrypt. In every case the two answers differ, and neither login touches
    the world. *)
Theorem login_failures_distinguishable
    (unknown known : obj) (w : world) (u : obj) :
  get unknown "email" ≠ VUndef →
  find_by "email" (get unknown "email") (users w) = None →
  get known "email" ≠ VUndef →
  find_by "email" (get known "email") (users w) = Some u →
  (∀ p h, get known "password" = VStr p → get u "password" = VStr h →
          bcrypt_compare p h = false) →
  let r1 := serve (login unknown) w in
  let r2 := serve (login known) w in
  r1 = Result Resolved w (Some (Response 404 (error_body "User not found")))
         [Call (FindOne (get unknown "email"));
          Call (Send 404 (error_body "User not found"))] ∧
  outcome_of r2 = Resolved ∧
  world_of r2 = w ∧
  response_of r2 =
    Some (match get known "password", get u "password" with
          | VStr _, VStr _ => Response 401 (error_body "Invalid credentials")
          | s, h =>
              Response 400
                (error_body ("Illegal arguments: " ++ typeof s ++ ", "
                             ++ typeof h))
          end) ∧
  response_of r1 ≠ response_of r2.
Proof.
  intros Hu Hnone Hk Hsome Hwrong r1 r2.
  assert (r1 = Result Resolved w
                 (Some (Response 404 (error_body "User not found")))
                 [Call (FindOne (get unknown "email"));
                  Call (Send 404 (error_body "User not found"))]) as H1.
  { subst r1. unfold handle, login. simpl. unfold findOne_call.
    destruct (get unknown "email") eqn:E; try done; rewrite Hnone; done. }
  split; [exact H1|]. rewrite H1. subst r2.
  unfold handle, login. simpl. unfold findOne_call.
  assert (findOne_call (get known "email") (users w) = inr (Some u)) as Hf.
  { unfold findOne_call. destruct (get known "email"); try done;
      by rewrite Hsome. }
  unfold findOne_call in Hf. rewrite Hf. simpl. unfold compare_call.
  destruct (get known "password") as [| |b|n|p] eqn:Hp;
    destruct (get u "password") as [| |b'|n'|h] eqn:Hh; simpl;
    try (repeat split; try done; intros H; discriminate H).
  rewrite (Hwrong p h eq_refl eq_refl). simpl.
  repeat split; try done; intros H; discriminate H.
Qed.

(** [register] looks the normalized email up; [login] and [socialLogin]
    look up the email as it came. *)
Lemma register_looks_up_normalized (userData : obj) (w : world) (e p : string) :
  get userData "email" = VStr e →
  get userData "password" = VStr p →
  trace_of (serve (register userData) w) !! 1%nat
    = Some (Call (FindOne (VStr (toLowerCase (trim e))))).
Proof.
  intros He Hp. unfold handle, register. rewrite He, Hp. simpl.
  destruct (find_by _ _ _) as [u|]; simpl; [reflexivity|].
  destruct (store_create _ _ _ _) as [err|[row us]]; reflexivity.
Qed.

Lemma login_looks_up_raw_email (req : obj) (w : world) :
  trace_of (serve (login req) w) !! 0%nat
    = Some (Call (FindOne (get req "email"))).
Proof.
  unfold handle, login. simpl.
  destruct (findOne_call _ _) as [e|[u|]]; simpl; try reflexivity.
  destruct (compare_call _ _ _) as [e|[|]]; simpl; try reflexivity.
  destruct (generateTokens _ _) as [a r]. simpl.
  destruct (store_update _ _ _ _) as [e|[n us]]; reflexivity.
Qed.

Lemma socialLogin_looks_up_raw_email (req : obj) (w : world) :
  trace_of (serve (socialLogin req) w) !! 0%nat
    = Some (Call (FindOrCreate (get req "email")
                    {[ "name" := get req "name";
                       "email" := get req "email" ]})).
Proof.
  unfold handle, socialLogin. simpl.
  destruct (findOrCreate_call _ _ _ _ _) as [e|[[u c] us]]; simpl;
    try reflexivity.
  destruct (generateTokens _ _) as [a r]. simpl.
  destruct (store_update _ _ _ _) as [e|[n us']]; reflexivity.
Qed.

(** Every response of [login]: the three failures, the error message of
    what was thrown, or the tokens. *)
Lemma login_responses (req : obj) (w : world) (resp : response) :
  response_of (serve (login req) w) = Some resp →
  (status resp ≠ 200) ∨
  ∃ accessToken refreshToken,
    resp = Response 200 (login_body accessToken refreshToken).
Proof.
  unfold handle, login. simpl.
  destruct (findOne_call _ _) as [e|[u|]]; simpl;
    [intros [= <-]; by left| |intros [= <-]; by left].
  destruct (compare_call _ _ _) as [e|[|]]; simpl;
    [intros [= <-]; by left| |intros [= <-]; by left].
  destruct (generateTokens _ _) as [a r]. simpl.
  destruct (store_update _ _ _ _) as [e|[n us]]; simpl;
    intros [= <-]; [by left|right; by exists a, r].
Qed.

(** [login] stores its refresh token under the key [refresh_token]: the
    value every row has under [refreshToken], the key [refreshToken] reads
    and compares, is what it was before the login. *)
Lemma update_row_other_key (values : obj) (id : value) (u : obj) (k : string) :
  values !! k = None →
  get (update_row attributes values id u) k = get u k.
Proof.
  intros Hk. unfold update_row, get. case_bool_decide; [|done].
  rewrite lookup_union_r; [done|].
  unfold assignable. apply map_lookup_filter_None. left. exact Hk.
Qed.

Lemma login_keeps_refreshToken (req : obj) (w : world) :
  map (fun u => get u "refreshToken")
      (users (world_of (serve (login req) w)))
  = map (fun u => get u "refreshToken") (users w).
Proof.
  unfold handle, login. simpl.
  destruct (findOne_call _ _) as [e|[u|]]; simpl; try done.
  destruct (compare_call _ _ _) as [e|[|]]; simpl; try done.
  destruct (generateTokens _ _) as [a r]. simpl.
  unfold store_update.
  destruct (get u "id"); simpl; try done;
    rewrite map_map; apply map_ext; intros u';
    by apply update_row_other_key.
Qed.

(** *** The runs of [register] *)

Local Abbreviation steps' :=
  (steps attributes defaults bcrypt_hash bcrypt_compare jwt_verify
         generateTokens).
Local Abbreviation finish' :=
  (finish attributes defaults bcrypt_hash bcrypt_compare jwt_verify
          generateTokens).

Lemma register_run (userData : obj) (w : world) (e p : string) :
  get userData "email" = VStr e →
  get userData "password" = VStr p →
  let email := toLowerCase (trim e) in
  let values := register_values userData email (bcrypt_hash (rng w) p) in
  let w1 := World (users w) (clock w) (N.succ (rng w)) in
  serve (register userData) w =
    match find_by "email" (VStr email) (users w) with
    | Some _ =>
        Result Resolved w1 (Some (Response 400 exists_body))
          [Call (BcryptHash (VStr p)); Call (FindOne (VStr email));
           Call (Send 400 exists_body)]
    | None =>
        match store_create attributes defaults values (users w) with
        | inl _ =>
            Result Resolved w1 (Some (Response 500 failed_body))
              [Call (BcryptHash (VStr p)); Call (FindOne (VStr email));
               Call (Create values); Call (Send 500 failed_body)]
        | inr (row, us) =>
            Result Resolved (with_users us w1)
              (Some (Response 201 (register_body (delete "password" row))))
              [Call (BcryptHash (VStr p)); Call (FindOne (VStr email));
               Call (Create values);
               Call (Send 201 (register_body (delete "password" row)))]
        end
    end.
Proof.
  intros He Hp. unfold handle, register. rewrite He, Hp. simpl.
  destruct (find_by _ _ _) as [u|]; simpl; [reflexivity|].
  destruct (store_create _ _ _ _) as [err|[row us]]; reflexivity.
Qed.

(** Without a string email or a string password the handler throws before
    its [try] block: no response, no call on the table. *)
Lemma register_run_rejected (userData : obj) (w : world) :
  (∀ e, get userData "email" ≠ VStr e) ∨
  (∀ p, get userData "password" ≠ VStr p) →
  let r := serve (register userData) w in
  response_of r = None ∧ world_of r = w ∧ omap created (trace_of r) = [].
Proof.
  intros H. unfold handle, register.
  destruct (get userData "email") as [| | | |e] eqn:He; simpl; try done.
  destruct (get userData "password") as [| | | |p] eqn:Hp; simpl; try done.
  destruct H as [H|H]; [by destruct (H e)|by destruct (H p)].
Qed.

(** *** What [register] answers with and stores *)

Lemma no_password_register_body (row : obj) :
  no_password (register_body (delete "password" row)).
Proof.
  split; [reflexivity|]. intros k o. unfold register_body.
  rewrite lookup_insert. case_decide; [done|].
  intros [_ [= <-]]%lookup_singleton_Some. apply lookup_delete_eq.
Qed.

Lemma no_password_login_body (accessToken refreshToken : string) :
  no_password (login_body accessToken refreshToken).
Proof.
  split; [reflexivity|]. intros k o. unfold login_body.
  rewrite !lookup_insert. repeat (case_decide; [done|]).
  by intros [_ ?]%lookup_singleton_Some.
Qed.

(** C8. The body of every successful register response (201) and of every
    successful login response (200) has no field named [password], neither
    at the top nor inside the returned user. *)
Theorem success_payload_without_password (req : obj) (w : world)
    (resp : response) :
  response_of (serve (register req) w) = Some resp ∧ status resp = 201
  ∨ response_of (serve (login req) w) = Some resp ∧ status resp = 200 →
  no_password (body resp).
Proof.
  intros [[Hr Hst]|[Hr Hst]].
  - destruct (get req "email") as [| | | |e] eqn:He;
      try (destruct (register_run_rejected req w) as [Hn _];
           [left; intros e'; rewrite He; done|];
           simpl in Hn; rewrite Hn in Hr; discriminate Hr).
    destruct (get req "password") as [| | | |p] eqn:Hp;
      try (destruct (register_run_rejected req w) as [Hn _];
           [right; intros p'; rewrite Hp; done|];
           simpl in Hn; rewrite Hn in Hr; discriminate Hr).
    rewrite (register_run req w e p He Hp) in Hr.
    destruct (find_by _ _ _) as [u|]; simpl in Hr;
      [injection Hr as <-; discriminate Hst|].
    destruct (store_create _ _ _ _) as [err|[row us]]; simpl in Hr;
      injection Hr as <-; [discriminate Hst|].
    apply no_password_register_body.
  - destruct (login_responses req w resp Hr) as [Hne|(a & r & ->)];
      [done|]. apply no_password_login_body.
Qed.

Local Abbreviation build_row' := (build_row attributes defaults).
Local Abbreviation is_attribute' := (is_attribute attributes).

(** A given attribute other than the id is stored as given. *)
Lemma build_row_lookup (values : obj) (us : list obj) (k : string) (v : value) :
  is_attribute' k = true → k ≠ "id" → values !! k = Some v → v ≠ VUndef →
  build_row' values us !! k = Some v.
Proof.
  intros Ha Hid Hk Hv. unfold build_row.
  rewrite lookup_insert_ne by done.
  do 2 apply lookup_union_Some_l. unfold assignable.
  apply map_lookup_filter_Some. done.
Qed.

Lemma register_values_other (userData : obj) (email hashed k : string) :
  k ≠ "email" → k ≠ "password" →
  register_values userData email hashed !! k = userData !! k.
Proof.
  intros He Hp. unfold register_values. by rewrite !lookup_insert_ne.
Qed.

(** What a row built by [create] holds under a key that is not an
    attribute of the model: the model's default if any, never what was
    given. *)
Lemma build_row_not_attribute (values : obj) (us : list obj) (k : string) :
  is_attribute' k = false → k ≠ "id" →
  build_row' values us !! k = defaults !! k.
Proof.
  intros Ha Hid. unfold build_row. rewrite lookup_insert_ne by done.
  assert (assignable attributes values !! k = None) as H1.
  { unfold assignable. apply map_lookup_filter_None. right.
    intros v _ [Hk _]. simpl in Hk. congruence. }
  assert (null_row attributes !! k = None) as H2.
  { unfold null_row. apply not_elem_of_list_to_map.
    rewrite <- list_fmap_compose, list_fmap_id.
    unfold is_attribute in Ha. by apply bool_decide_eq_false_1 in Ha. }
  rewrite lookup_union_l by exact H2. by rewrite lookup_union_r.
Qed.

Lemma build_row_given_id (values : obj) (us : list obj) (v : value) :
  values !! "id" = Some v → v ≠ VUndef → v ≠ VNull →
  build_row' values us !! "id" = Some v.
Proof.
  intros Hk Hu Hn. unfold build_row, get. rewrite Hk, lookup_insert_eq.
  simpl. by destruct v.
Qed.

(** C9 (as the code has it). Whatever [register] hands to [User.create] is
    the request payload with the email replaced by its normalized form and
    the password by its digest: every other field of the payload, [role]
    included, is passed on as it came, unvalidated and unfiltered. When the
    user is created (201), one row is appended; it carries with the value
    the caller gave every such field whose key is an attribute of the model
    ([role] when it is one) and the [id] if the caller gave one; a field
    whose key is no attribute of the model is not stored: under that key
    the row has what the model's defaults have, whatever the caller
    sent. *)
Theorem register_copies_payload (userData : obj) (w : world) (values : obj) :
  values ∈ omap created (trace_of (serve (register userData) w)) →
  ∃ e p,
    get userData "email" = VStr e ∧
    get userData "password" = VStr p ∧
    values = <["password" := VStr (bcrypt_hash (rng w) p)]>
               (<["email" := VStr (toLowerCase (trim e))]> userData) ∧
    (∀ k, k ≠ "email" → k ≠ "password" → values !! k = userData !! k) ∧
    (∀ resp,
        response_of (serve (register userData) w) = Some resp →
        status resp = 201 →
        ∃ row,
          users (world_of (serve (register userData) w))
            = (users w ++ [row])%list ∧
          (∀ k v, is_attribute' k = true →
                  k ≠ "id" → k ≠ "email" → k ≠ "password" →
                  userData !! k = Some v → v ≠ VUndef →
                  row !! k = Some v) ∧
          (∀ v, userData !! "id" = Some v → v ≠ VUndef → v ≠ VNull →
                row !! "id" = Some v) ∧
          (∀ k, is_attribute' k = false → k ≠ "id" →
                row !! k = defaults !! k)).
Proof.
  intros Hin.
  destruct (get userData "email") as [| | | |e] eqn:He;
    try (destruct (register_run_rejected userData w) as (_ & _ & Hn);
         [left; intros e'; rewrite He; done|];
         simpl in Hn; rewrite Hn in Hin; by apply elem_of_nil in Hin).
  destruct (get userData "password") as [| | | |p] eqn:Hp;
    try (destruct (register_run_rejected userData w) as (_ & _ & Hn);
         [right; intros p'; rewrite Hp; done|];
         simpl in Hn; rewrite Hn in Hin; by apply elem_of_nil in Hin).
  exists e, p. rewrite (register_run userData w e p He Hp) in Hin |- *.
  destruct (find_by _ _ _) as [u|]; simpl in Hin;
    [by apply elem_of_nil in Hin|].
  unfold store_create in Hin |- *.
  destruct (existsb _ _); simpl in Hin;
    apply list_elem_of_singleton in Hin; subst values;
    (split; [reflexivity|]); (split; [reflexivity|]);
    (split; [reflexivity|]);
    (split; [intros k; apply register_values_other|]);
    simpl; intros resp [= <-] Hst; [discriminate Hst|].
  eexists. split; [reflexivity|]. split; [|split].
  - intros k v Ha Hid Hke Hkp Hk Hv. apply build_row_lookup; try done.
    by rewrite register_values_other.
  - intros v Hk Hu Hn. apply build_row_given_id; try done.
    by rewrite register_values_other.
  - intros k Ha Hid. by apply build_row_not_attribute.
Qed.

(** *** Registering an email twice *)

Lemma find_by_none_filter (k : string) (v : value) (us : list obj) :
  find_by k v us = None →
  List.filter (fun u => bool_decide (get u k = v)) us = [].
Proof.
  unfold find_by. induction us as [|u us IH]; simpl; [done|].
  destruct (bool_decide (get u k = v)); [done|]. exact IH.
Qed.

Lemma find_by_app_new (k : string) (v : value) (us : list obj) (row : obj) :
  find_by k v us = None → get row k = v →
  find_by k v (us ++ [row]) = Some row.
Proof.
  unfold find_by. intros Hn Hr.
  induction us as [|u us IH]; simpl in *.
  - by rewrite bool_decide_eq_true_2.
  - destruct (bool_decide (get u k = v)); [done|]. by apply IH.
Qed.

(** C7 (as the code has it). Two registrations whose emails normalize to
    the same address. In sequence: when the first creates the user (201),
    the second answers 400 "User with this email already exists" and
    creates nothing, and one row carries the address. When instead the
    second has made its existence check while the address was free, and
    its create then fails on the uniqueness constraint in the world it
    resumes in, it answers 500 "An error occurred while creating the
    user", and creates nothing. *)
Theorem register_duplicate_email (first second : obj) (w wb : world)
    (e1 e2 p1 p2 : string) :
  is_attribute' "email" = true →
  get first "email" = VStr e1 → get first "password" = VStr p1 →
  get second "email" = VStr e2 → get second "password" = VStr p2 →
  toLowerCase (trim e1) = toLowerCase (trim e2) →
  let email := toLowerCase (trim e2) in
  (∀ resp,
      response_of (serve (register first) w) = Some resp →
      status resp = 201 →
      let w1 := world_of (serve (register first) w) in
      let r2 := serve (register second) w1 in
      List.length (users w1) = S (List.length (users w)) ∧
      response_of r2 = Some (Response 400 exists_body) ∧
      users (world_of r2) = users w1 ∧
      List.length (with_email email (users w1)) = 1%nat)
  ∧
  (find_by "email" (VStr email) (users w) = None →
   ∀ err,
     store_create attributes defaults
       (register_values second email (bcrypt_hash (rng w) p2)) (users wb)
       = inl err →
     let r := finish' (steps' 2 (spawn (register second)) w).1 wb in
     response_of r = Some (Response 500 failed_body) ∧
     outcome_of r = Resolved ∧
     world_of r = wb).
Proof.
  intros Hattr He1 Hp1 He2 Hp2 Hnorm email. split.
  - intros resp Hr Hst w1 r2. subst w1 r2.
    rewrite (register_run first w e1 p1 He1 Hp1) in Hr |- *.
    rewrite Hnorm in Hr |- *. fold email in Hr |- *.
    destruct (find_by "email" (VStr email) (users w)) as [u|] eqn:Hf;
      simpl in Hr; [injection Hr as <-; discriminate Hst|].
    unfold store_create in Hr |- *.
    destruct (existsb _ _); simpl in Hr;
      injection Hr as <-; [discriminate Hst|].
    set (row := build_row' _ (users w)).
    assert (get row "email" = VStr email) as Hrow.
    { unfold get, row. erewrite build_row_lookup; [done|done|done| |done].
      unfold register_values.
      rewrite lookup_insert_ne by done. apply lookup_insert_eq. }
    rewrite (register_run second _ e2 p2 He2 Hp2). fold email. simpl.
    rewrite (find_by_app_new _ _ _ row Hf Hrow). simpl.
    split; [by rewrite length_app, Nat.add_1_r|].
    split; [done|]. split; [done|].
    unfold with_email. rewrite List.filter_app.
    rewrite (find_by_none_filter _ _ _ Hf). simpl.
    by rewrite bool_decide_eq_true_2.
  - intros Hf err Hc r. subst r.
    unfold steps, step, spawn, finish, register. rewrite He2, Hp2. simpl.
    fold email. unfold findOne_call. rewrite Hf. simpl.
    rewrite Hc. done.
Qed.

End Properties.

(** ** The handlers on concrete requests *)

(** C1. Bob's first refresh token, already exchanged for a second one, is
    presented again: the client is answered 403 "Invalid refresh token",
    yet the handler runs on, signs a third pair and writes its refresh
    token over the second one in the table. *)
Theorem replayed_refresh_overwrites_stored_token :
  let first := Toy.serve (refreshToken (Toy.present Toy.bob_refresh1))
                         (at_time 2000 Toy.bob_session) in
  let replay := Toy.serve (refreshToken (Toy.present Toy.bob_refresh1))
                          (at_time 3000 Toy.bob_rotated) in
  response_of first
    = Some (Response 200 (pair_body (Toy.bob_access2, Toy.bob_refresh2))) ∧
  stored_tokens Toy.bob_rotated = [VStr Toy.bob_refresh2] ∧
  response_of replay
    = Some (Response 403 (message_body "Invalid refresh token")) ∧
  outcome_of replay = Rejected headers_sent ∧
  existsb is_write (trace_of replay) = true ∧
  stored_tokens (world_of replay) = [VStr Toy.bob_refresh3].
Proof. vm_compute. repeat split. Qed.

(** C2. Ann registers and logs in with the right password; the refresh
    token of the login response, presented at once, is answered 403
    "Invalid refresh token": [login] wrote it under [refresh_token], and
    [refreshToken] compares with what the row has under [refreshToken].
    This holds whichever of the two names the model declares. *)
Theorem login_token_refused_by_refresh :
  response_of (Toy.serve (login Toy.ann_login) (at_time 2000 Toy.registered))
    = Some (Response 200 (login_body Toy.ann_access Toy.ann_refresh)) ∧
  stored_tokens Toy.logged_in = [VNull] ∧
  response_of (Toy.serve (refreshToken (Toy.present Toy.ann_refresh))
                         Toy.logged_in)
    = Some (Response 403 (message_body "Invalid refresh token")) ∧
  response_of (Toy.serve_snake (login Toy.ann_login)
                               (at_time 2000 Toy.registered_snake))
    = Some (Response 200 (login_body Toy.ann_access Toy.ann_refresh)) ∧
  map (fun u => get u "refresh_token") (users Toy.logged_in_snake)
    = [VStr Toy.ann_refresh] ∧
  response_of (Toy.serve_snake (refreshToken (Toy.present Toy.ann_refresh))
                               Toy.logged_in_snake)
    = Some (Response 403 (message_body "Invalid refresh token")).
Proof. vm_compute. repeat split. Qed.

(** C4. Ann registers as " A@B.com " and is stored as "a@b.com". Logging
    in with the address as she typed it, with or without the spaces, finds
    no user; only the normalized spelling logs in. A social login with
    "A@B.com" creates a second row. *)
Theorem login_email_not_normalized :
  stored_emails Toy.registered = [VStr "a@b.com"] ∧
  response_of (Toy.serve (login Toy.ann) Toy.registered)
    = Some (Response 404 (error_body "User not found")) ∧
  response_of (Toy.serve (login Toy.ann_upper_login) Toy.registered)
    = Some (Response 404 (error_body "User not found")) ∧
  (status <$> response_of (Toy.serve (login Toy.ann_login) Toy.registered))
    = Some 200 ∧
  stored_emails (world_of (Toy.serve (socialLogin Toy.ann_social)
                                     Toy.registered))
    = [VStr "a@b.com"; VStr "A@B.com"].
Proof. vm_compute. repeat split. Qed.

(** C5, counterexample. No row has the address of the first login; Ann's
    row has the address of the second, whose password is wrong. The two
    answers differ in status and in message. *)
Lemma login_failures_not_alike :
  find_by "email" (get Toy.nobody "email") (users Toy.registered) = None ∧
  find_by "email" (get Toy.ann_wrong_password "email") (users Toy.registered)
    = Some Toy.ann_row ∧
  response_of (Toy.serve (login Toy.nobody) Toy.registered)
    = Some (Response 404 (error_body "User not found")) ∧
  response_of (Toy.serve (login Toy.ann_wrong_password) Toy.registered)
    = Some (Response 401 (error_body "Invalid credentials")) ∧
  response_of (Toy.serve (login Toy.nobody) Toy.registered)
    ≠ response_of (Toy.serve (login Toy.ann_wrong_password) Toy.registered).
Proof.
  assert (response_of (Toy.serve (login Toy.nobody) Toy.registered)
          = Some (Response 404 (error_body "User not found"))) as H1
    by (vm_compute; reflexivity).
  assert (response_of (Toy.serve (login Toy.ann_wrong_password) Toy.registered)
          = Some (Response 401 (error_body "Invalid credentials"))) as H2
    by (vm_compute; reflexivity).
  split; [vm_compute; reflexivity|]. split; [vm_compute; reflexivity|].
  split; [exact H1|]. split; [exact H2|].
  rewrite H1, H2. intros H. discriminate H.
Qed.

(** The failures on Ann's table (an unknown address, a wrong password) and
    on Bob's, whose row was made by social login and has no digest. *)
Lemma login_failures_distinguishable_witness :
  (get Toy.nobody "email" ≠ VUndef ∧
   find_by "email" (get Toy.nobody "email") (users Toy.registered) = None ∧
   get Toy.ann_wrong_password "email" ≠ VUndef ∧
   find_by "email" (get Toy.ann_wrong_password "email") (users Toy.registered)
     = Some Toy.ann_row ∧
   (∀ p h, get Toy.ann_wrong_password "password" = VStr p →
           get Toy.ann_row "password" = VStr h →
           Toy.bcrypt_compare p h = false)) ∧
  (response_of (Toy.serve (login Toy.nobody) Toy.registered)
     = Some (Response 404 (error_body "User not found")) ∧
   response_of (Toy.serve (login Toy.ann_wrong_password) Toy.registered)
     = Some (Response 401 (error_body "Invalid credentials"))) ∧
  (find_by "email" (get Toy.bob_password_login "email")
           (users Toy.bob_session) = Some Toy.bob_row ∧
   response_of (Toy.serve (login Toy.bob_password_login) Toy.bob_session)
     = Some (Response 400
               (error_body "Illegal arguments: string, object"))).
Proof.
  assert (get Toy.nobody "email" ≠ VUndef) as H1
    by (vm_compute; discriminate).
  assert (find_by "email" (get Toy.nobody "email") (users Toy.registered)
          = None) as H2 by (vm_compute; reflexivity).
  assert (get Toy.ann_wrong_password "email" ≠ VUndef) as H3
    by (vm_compute; discriminate).
  assert (find_by "email" (get Toy.ann_wrong_password "email")
                  (users Toy.registered) = Some Toy.ann_row) as H4
    by (vm_compute; reflexivity).
  assert (∀ p h, get Toy.ann_wrong_password "password" = VStr p →
                 get Toy.ann_row "password" = VStr h →
                 Toy.bcrypt_compare p h = false) as H5.
  { intros p h Hp Hh. vm_compute in Hp, Hh.
    injection Hp as <-. injection Hh as <-. vm_compute. reflexivity. }
  assert (find_by "email" (get Toy.nobody "email") (users Toy.bob_session)
          = None) as H6 by (vm_compute; reflexivity).
  assert (get Toy.bob_password_login "email" ≠ VUndef) as H7
    by (vm_compute; discriminate).
  assert (find_by "email" (get Toy.bob_password_login "email")
                  (users Toy.bob_session) = Some Toy.bob_row) as H8
    by (vm_compute; reflexivity).
  assert (∀ p h, get Toy.bob_password_login "password" = VStr p →
                 get Toy.bob_row "password" = VStr h →
                 Toy.bcrypt_compare p h = false) as H9.
  { intros p h _ Hh. vm_compute in Hh. discriminate Hh. }
  split; [repeat split; assumption|].
  destruct (login_failures_distinguishable
              Toy.attributes Toy.defaults Toy.bcrypt_hash Toy.bcrypt_compare
              Toy.jwt_verify Toy.generateTokens
              Toy.nobody Toy.ann_wrong_password Toy.registered Toy.ann_row
              H1 H2 H3 H4 H5) as (Ha & _ & _ & Hb & _).
  destruct (login_failures_distinguishable
              Toy.attributes Toy.defaults Toy.bcrypt_hash Toy.bcrypt_compare
              Toy.jwt_verify Toy.generateTokens
              Toy.nobody Toy.bob_password_login Toy.bob_session Toy.bob_row
              H1 H6 H7 H8 H9) as (_ & _ & _ & Hc & _).
  split; [split|split].
  - unfold Toy.serve. by rewrite Ha.
  - unfold Toy.serve. rewrite Hb. reflexivity.
  - exact H8.
  - unfold Toy.serve. rewrite Hc. reflexivity.
Defined.

(** C6, counterexample. Bob is an administrator by the time he refreshes;
    the token he presents was signed when he was a user. The refresh
    succeeds, and the pair it answers with is not the pair signed from the
    fetched row: it says "user". *)
Lemma refresh_keeps_stale_role :
  findByPk_call (VNum 1) (users Toy.bob_promoted)
    = Some (Toy.promote Toy.bob_row) ∧
  get (Toy.promote Toy.bob_row) "role" = VStr "admin" ∧
  response_of (Toy.serve (refreshToken (Toy.present Toy.bob_refresh1))
                         Toy.bob_promoted)
    = Some (Response 200 (pair_body (Toy.bob_access2, Toy.bob_refresh2))) ∧
  response_of (Toy.serve (refreshToken (Toy.present Toy.bob_refresh1))
                         Toy.bob_promoted)
    ≠ Some (Response 200
              (pair_body (Toy.generateTokens
                            2000 (userForToken (Toy.promote Toy.bob_row))))).
Proof.
  assert (response_of (Toy.serve (refreshToken (Toy.present Toy.bob_refresh1))
                                 Toy.bob_promoted)
          = Some (Response 200
                    (pair_body (Toy.bob_access2, Toy.bob_refresh2)))) as H
    by (vm_compute; reflexivity).
  split; [vm_compute; reflexivity|]. split; [vm_compute; reflexivity|].
  split; [exact H|]. rewrite H. intros Hb. vm_compute in Hb. discriminate Hb.
Qed.

(** Bob's refresh after his promotion succeeds, with the pair signed from
    the payload of his token. *)
Lemma refresh_success_from_payload_witness :
  (response_of (Toy.serve (refreshToken (Toy.present Toy.bob_refresh1))
                          Toy.bob_promoted)
     = Some (Response 200 (pair_body (Toy.bob_access2, Toy.bob_refresh2))) ∧
   status (Response 200 (pair_body (Toy.bob_access2, Toy.bob_refresh2)))
     = 200) ∧
  ∃ (t : string) (payload : obj),
    get (Toy.present Toy.bob_refresh1) "refreshToken" = VStr t ∧
    Toy.jwt_verify (clock Toy.bob_promoted) t = Some payload ∧
    Response 200 (pair_body (Toy.bob_access2, Toy.bob_refresh2))
      = Response 200
          (pair_body (Toy.generateTokens (clock Toy.bob_promoted) payload)).
Proof.
  assert (response_of (Toy.serve (refreshToken (Toy.present Toy.bob_refresh1))
                                 Toy.bob_promoted)
          = Some (Response 200
                    (pair_body (Toy.bob_access2, Toy.bob_refresh2)))) as H
    by (vm_compute; reflexivity).
  split; [split; [exact H|reflexivity]|].
  exact (refresh_success_from_payload
           Toy.attributes Toy.defaults Toy.bcrypt_hash Toy.bcrypt_compare
           Toy.jwt_verify Toy.generateTokens
           (Toy.present Toy.bob_refresh1) Toy.bob_promoted
           (Response 200 (pair_body (Toy.bob_access2, Toy.bob_refresh2)))
           H eq_refl).
Defined.

(** C7, counterexample. Two registrations of one address in flight
    together: both check while the table is empty, the first creates the
    user and is answered 201, the second's create fails on the uniqueness
    constraint and is answered 500 "An error occurred while creating the
    user", not the 400 of an existing email. *)
Lemma concurrent_duplicate_is_generic_error :
  code Toy.race_first = Ret tt ∧ code Toy.race_second = Ret tt ∧
  (status <$> sent_of Toy.race_first) = Some 201 ∧
  sent_of Toy.race_second = Some (Response 500 failed_body) ∧
  sent_of Toy.race_second ≠ Some (Response 400 exists_body) ∧
  stored_emails Toy.race_world = [VStr "a@b.com"].
Proof.
  assert (sent_of Toy.race_second = Some (Response 500 failed_body)) as H
    by (vm_compute; reflexivity).
  repeat split; try (vm_compute; reflexivity).
  rewrite H. intros H'. discriminate H'.
Qed.

(** Ann's address registered twice: in sequence, and with the second
    request resuming after the first has created the user. *)
Lemma register_duplicate_email_witness :
  (is_attribute Toy.attributes "email" = true ∧
   get Toy.ann "email" = VStr " A@B.com " ∧
   get Toy.ann "password" = VStr "secret123" ∧
   get Toy.ann_again "email" = VStr "a@b.com" ∧
   get Toy.ann_again "password" = VStr "hunter2" ∧
   toLowerCase (trim " A@B.com ") = toLowerCase (trim "a@b.com")) ∧
  (List.length (users Toy.registered) = 1%nat ∧
   response_of (Toy.serve (register Toy.ann_again) Toy.registered)
     = Some (Response 400 exists_body) ∧
   users (world_of (Toy.serve (register Toy.ann_again) Toy.registered))
     = users Toy.registered ∧
   List.length (with_email "a@b.com" (users Toy.registered)) = 1%nat) ∧
  (let r := finish Toy.attributes Toy.defaults Toy.bcrypt_hash
                   Toy.bcrypt_compare Toy.jwt_verify Toy.generateTokens
                   Toy.ann_again_checked Toy.registered in
   response_of r = Some (Response 500 failed_body) ∧
   outcome_of r = Resolved ∧
   world_of r = Toy.registered).
Proof.
  assert (is_attribute Toy.attributes "email" = true) as H0
    by (vm_compute; reflexivity).
  assert (get Toy.ann "email" = VStr " A@B.com ") as H1
    by (vm_compute; reflexivity).
  assert (get Toy.ann "password" = VStr "secret123") as H2
    by (vm_compute; reflexivity).
  assert (get Toy.ann_again "email" = VStr "a@b.com") as H3
    by (vm_compute; reflexivity).
  assert (get Toy.ann_again "password" = VStr "hunter2") as H4
    by (vm_compute; reflexivity).
  assert (toLowerCase (trim " A@B.com ") = toLowerCase (trim "a@b.com"))
    as H5 by (vm_compute; reflexivity).
  split; [repeat split; assumption|].
  destruct (register_duplicate_email
              Toy.attributes Toy.defaults Toy.bcrypt_hash Toy.bcrypt_compare
              Toy.jwt_verify Toy.generateTokens
              Toy.ann Toy.ann_again Toy.empty_world Toy.registered
              " A@B.com " "a@b.com" "secret123" "hunter2"
              H0 H1 H2 H3 H4 H5) as [Hseq Hrace].
  split.
  - apply (Hseq (Response 201 (register_body (delete "password" Toy.ann_row))));
      vm_compute; reflexivity.
  - apply (Hrace ltac:(vm_compute; reflexivity) unique_constraint_error).
    vm_compute; reflexivity.
Defined.

(** Ann's registration and login succeed, and neither answer has a
    password field. *)
Lemma success_payload_without_password_witness :
  (response_of (Toy.serve (register Toy.ann) Toy.empty_world)
     = Some (Response 201 (register_body (delete "password" Toy.ann_row))) ∧
   no_password (register_body (delete "password" Toy.ann_row))) ∧
  (response_of (Toy.serve (login Toy.ann_login) (at_time 2000 Toy.registered))
     = Some (Response 200 (login_body Toy.ann_access Toy.ann_refresh)) ∧
   no_password (login_body Toy.ann_access Toy.ann_refresh)).
Proof.
  assert (response_of (Toy.serve (register Toy.ann) Toy.empty_world)
          = Some (Response 201
                    (register_body (delete "password" Toy.ann_row)))) as H1
    by (vm_compute; reflexivity).
  assert (response_of (Toy.serve (login Toy.ann_login)
                                 (at_time 2000 Toy.registered))
          = Some (Response 200 (login_body Toy.ann_access Toy.ann_refresh)))
    as H2 by (vm_compute; reflexivity).
  split; (split; [assumption|]).
  - exact (success_payload_without_password
             Toy.attributes Toy.defaults Toy.bcrypt_hash Toy.bcrypt_compare
             Toy.jwt_verify Toy.generateTokens
             Toy.ann Toy.empty_world
             (Response 201 (register_body (delete "password" Toy.ann_row)))
             (or_introl (conj H1 eq_refl))).
  - exact (success_payload_without_password
             Toy.attributes Toy.defaults Toy.bcrypt_hash Toy.bcrypt_compare
             Toy.jwt_verify Toy.generateTokens
             Toy.ann_login (at_time 2000 Toy.registered)
             (Response 200 (login_body Toy.ann_access Toy.ann_refresh))
             (or_intror (conj H2 eq_refl))).
Defined.

(** C9, counterexample. A registration with a nickname: the nickname is
    handed to [User.create] and the user is created, but the row that is
    stored has no nickname, the model having no such attribute. *)
Lemma register_drops_unknown_field :
  Toy.mallory !! "nickname" = Some (VStr "mal") ∧
  omap created (trace_of (Toy.serve (register Toy.mallory) Toy.empty_world))
    = [Toy.mallory_values] ∧
  Toy.mallory_values !! "nickname" = Some (VStr "mal") ∧
  (status <$> response_of (Toy.serve (register Toy.mallory) Toy.empty_world))
    = Some 201 ∧
  users (world_of (Toy.serve (register Toy.mallory) Toy.empty_world))
    = [Toy.mallory_row] ∧
  Toy.mallory_row !! "nickname" = None ∧
  Toy.mallory_row !! "nickname" ≠ Toy.mallory !! "nickname".
Proof.
  assert (Toy.mallory_row !! "nickname" = None) as H1
    by (vm_compute; reflexivity).
  assert (Toy.mallory !! "nickname" = Some (VStr "mal")) as H2
    by (vm_compute; reflexivity).
  repeat split; try (vm_compute; reflexivity).
  rewrite H1, H2. discriminate.
Qed.

(** A registration that asks for the role of administrator gets it; its
    nickname, which is no attribute of the model, reaches [User.create] but
    not the row. *)
Lemma register_copies_payload_witness :
  Toy.mallory_values
    ∈ omap created (trace_of (Toy.serve (register Toy.mallory)
                                        Toy.empty_world)) ∧
  Toy.mallory_values !! "role" = Some (VStr "admin") ∧
  Toy.mallory_values !! "nickname" = Some (VStr "mal") ∧
  users (world_of (Toy.serve (register Toy.mallory) Toy.empty_world))
    = [Toy.mallory_row] ∧
  Toy.mallory_row !! "role" = Some (VStr "admin") ∧
  ∃ e p,
    get Toy.mallory "email" = VStr e ∧
    get Toy.mallory "password" = VStr p ∧
    Toy.mallory_values
      = <["password" := VStr (Toy.bcrypt_hash (rng Toy.empty_world) p)]>
          (<["email" := VStr (toLowerCase (trim e))]> Toy.mallory) ∧
    (∀ k, k ≠ "email" → k ≠ "password" →
          Toy.mallory_values !! k = Toy.mallory !! k) ∧
    (∀ resp,
        response_of (Toy.serve (register Toy.mallory) Toy.empty_world)
          = Some resp →
        status resp = 201 →
        ∃ row,
          users (world_of (Toy.serve (register Toy.mallory) Toy.empty_world))
            = (users Toy.empty_world ++ [row])%list ∧
          (∀ k v, is_attribute Toy.attributes k = true →
                  k ≠ "id" → k ≠ "email" → k ≠ "password" →
                  Toy.mallory !! k = Some v → v ≠ VUndef →
                  row !! k = Some v) ∧
          (∀ v, Toy.mallory !! "id" = Some v → v ≠ VUndef → v ≠ VNull →
                row !! "id" = Some v) ∧
          (∀ k, is_attribute Toy.attributes k = false → k ≠ "id" →
                row !! k = Toy.defaults !! k)).
Proof.
  assert (Toy.mallory_values
            ∈ omap created (trace_of (Toy.serve (register Toy.mallory)
                                                Toy.empty_world))) as H.
  { assert (omap created (trace_of (Toy.serve (register Toy.mallory)
                                              Toy.empty_world))
            = [Toy.mallory_values]) as -> by (vm_compute; reflexivity).
    apply list_elem_of_singleton. reflexivity. }
  split; [exact H|]. split; [vm_compute; reflexivity|].
  split; [vm_compute; reflexivity|]. split; [vm_compute; reflexivity|].
  split; [vm_compute; reflexivity|].
  exact (register_copies_payload
           Toy.attributes Toy.defaults Toy.bcrypt_hash Toy.bcrypt_compare
           Toy.jwt_verify Toy.generateTokens
           Toy.mallory Toy.empty_world Toy.mallory_values H).
Defined.

(** Bob's refresh token presented after it has expired. *)
Lemma refresh_invalid_token_no_write_witness :
  (∀ t, get (Toy.present Toy.bob_refresh1) "refreshToken" = VStr t →
        Toy.jwt_verify (clock Toy.bob_much_later) t = None) ∧
  truthy (get (Toy.present Toy.bob_refresh1) "refreshToken") = true ∧
  let r := Toy.serve (refreshToken (Toy.present Toy.bob_refresh1))
                     Toy.bob_much_later in
  world_of r = Toy.bob_much_later ∧
  Forall (fun c => is_write c = false) (trace_of r) ∧
  (truthy (get (Toy.present Toy.bob_refresh1) "refreshToken") = true →
   outcome_of r = Resolved ∧
   response_of r =
     Some (Response 403 (message_body "Invalid or expired refresh token"))).
Proof.
  assert (∀ t, get (Toy.present Toy.bob_refresh1) "refreshToken" = VStr t →
               Toy.jwt_verify (clock Toy.bob_much_later) t = None) as H.
  { intros t Ht. vm_compute in Ht. injection Ht as <-.
    vm_compute. reflexivity. }
  split; [exact H|]. split; [vm_compute; reflexivity|].
  exact (refresh_invalid_token_no_write
           Toy.attributes Toy.defaults Toy.bcrypt_hash Toy.bcrypt_compare
           Toy.jwt_verify Toy.generateTokens
           (Toy.present Toy.bob_refresh1) Toy.bob_much_later H).
Defined.

(** ** Further properties of the handlers *)

Section Further.

Variable attributes : list string.
Variable defaults : obj.
Variable bcrypt_hash : N -> string -> string.
Variable bcrypt_compare : string -> string -> bool.
Variable jwt_verify : Z -> string -> option obj.
Variable generateTokens : Z -> obj -> string * string.

Local Abbreviation serve :=
  (handle attributes defaults bcrypt_hash bcrypt_compare jwt_verify
          generateTokens).
Local Abbreviation is_attribute' := (is_attribute attributes).
Local Abbreviation update_row' := (update_row attributes).

(** *** Who always answers *)

(** X1. [login] and [socialLogin] never leave the client without an answer
    and never answer twice: whatever the request and the table, the promise
    resolves and exactly one response has been sent. *)
Theorem login_and_socialLogin_answer_once (req : obj) (w : world) :
  (outcome_of (serve (login req) w) = Resolved ∧
   sends (trace_of (serve (login req) w)) = 1%nat ∧
   is_Some (response_of (serve (login req) w))) ∧
  (outcome_of (serve (socialLogin req) w) = Resolved ∧
   sends (trace_of (serve (socialLogin req) w)) = 1%nat ∧
   is_Some (response_of (serve (socialLogin req) w))).
Proof.
  split.
  - unfold handle, login. simpl.
    destruct (findOne_call _ _) as [e|[u|]]; simpl; try by eauto.
    destruct (compare_call _ _ _) as [e|[|]]; simpl; try by eauto.
    destruct (generateTokens _ _) as [a r]. simpl.
    destruct (store_update _ _ _ _) as [e|[n us]]; simpl; by eauto.
  - unfold handle, socialLogin. simpl.
    destruct (findOrCreate_call _ _ _ _ _) as [e|[[u c] us]]; simpl;
      try by eauto.
    destruct (generateTokens _ _) as [a r]. simpl.
    destruct (store_update _ _ _ _) as [e|[n us']]; simpl; by eauto.
Qed.

(** X2. Without a string email or a string password [register] throws
    before its [try] block: the promise rejects, the client gets no answer,
    the world is as it was and the table was neither read nor written. *)
Theorem register_rejects_without_answer (userData : obj) (w : world) :
  (∀ e, get userData "email" ≠ VStr e) ∨
  (∀ p, get userData "password" ≠ VStr p) →
  let r := serve (register userData) w in
  (∃ err, outcome_of r = Rejected err) ∧
  response_of r = None ∧
  world_of r = w ∧
  existsb is_lookup (trace_of r) = false ∧
  existsb is_write (trace_of r) = false.
Proof.
  intros H. unfold handle, register.
  destruct (get userData "email") as [| |b|n|e] eqn:He; simpl;
    try by eauto 10.
  destruct (get userData "password") as [| |b|n|p] eqn:Hp; simpl;
    try by eauto 10.
  destruct H as [H|H]; [by destruct (H e)|by destruct (H p)].
Qed.

Local Abbreviation register_run' :=
  (register_run attributes defaults bcrypt_hash bcrypt_compare jwt_verify
                generateTokens).

(** X3. With a string email and a string password [register] resolves
    having answered exactly once, with 201, 400 or 500; unless the answer is
    201 the table is as it was. *)
Theorem register_answers_once (userData : obj) (w : world) (e p : string) :
  get userData "email" = VStr e →
  get userData "password" = VStr p →
  let r := serve (register userData) w in
  outcome_of r = Resolved ∧
  sends (trace_of r) = 1%nat ∧
  ∃ resp,
    response_of r = Some resp ∧
    (status resp = 201 ∨ status resp = 400 ∨ status resp = 500) ∧
    (status resp ≠ 201 → users (world_of r) = users w).
Proof.
  intros He Hp r. subst r. rewrite (register_run' userData w e p He Hp).
  destruct (find_by _ _ _) as [u|]; simpl.
  { split; [done|]. split; [done|]. eexists. split; [done|]. auto. }
  destruct (store_create _ _ _ _) as [err|[row us]]; simpl;
    (split; [done|]); (split; [done|]); eexists; (split; [done|]); auto.
  split; [auto|]. intros H. by destruct H.
Qed.

(** X4. When [register] answers 201, no row had the normalized email
    before; exactly one row is appended, carrying the normalized email and
    the digest of the password; and the answer returns that row with only
    the password removed. *)
Theorem register_created_row (userData : obj) (w : world) (e p : string)
    (resp : response) :
  is_attribute' "email" = true →
  is_attribute' "password" = true →
  get userData "email" = VStr e →
  get userData "password" = VStr p →
  response_of (serve (register userData) w) = Some resp →
  status resp = 201 →
  ∃ row,
    find_by "email" (VStr (toLowerCase (trim e))) (users w) = None ∧
    users (world_of (serve (register userData) w)) = (users w ++ [row])%list ∧
    get row "email" = VStr (toLowerCase (trim e)) ∧
    get row "password" = VStr (bcrypt_hash (rng w) p) ∧
    resp = Response 201 (register_body (delete "password" row)).
Proof.
  intros Hae Hap He Hp Hr Hst.
  rewrite (register_run' userData w e p He Hp) in Hr |- *.
  destruct (find_by _ _ _) as [u|]; simpl in Hr;
    [injection Hr as <-; discriminate Hst|].
  unfold store_create in Hr |- *.
  destruct (existsb _ _); simpl in Hr; injection Hr as <-;
    [discriminate Hst|].
  eexists. split; [done|]. split; [done|]. simpl.
  unfold get.
  erewrite !(build_row_lookup attributes defaults); try done.
  - apply lookup_insert_eq.
  - unfold register_values. rewrite lookup_insert_ne by done.
    apply lookup_insert_eq.
Qed.

(** *** What [login] checks and writes *)

Lemma userForToken_without_password (u : obj) :
  userForToken (delete "password" u) = userForToken u.
Proof.
  unfold userForToken, get. by rewrite !lookup_delete_ne.
Qed.

(** X5. [login] answers 200 only when a row has exactly the email of the
    request, the request's password is a string that bcrypt accepts against
    that row's digest, and then the tokens are those signed from the id,
    name, email and role of that row. *)
Theorem login_success_sound (req : obj) (w : world) (resp : response) :
  response_of (serve (login req) w) = Some resp →
  status resp = 200 →
  ∃ (u : obj) (p h : string),
    find_by "email" (get req "email") (users w) = Some u ∧
    get req "password" = VStr p ∧
    get u "password" = VStr h ∧
    bcrypt_compare p h = true ∧
    let tokens := generateTokens (clock w) (userForToken u) in
    resp = Response 200 (login_body tokens.1 tokens.2).
Proof.
  unfold handle, login. simpl. intros Hr Hst.
  destruct (findOne_call _ _) as [e|[u|]] eqn:Hf; simpl in Hr;
    try (injection Hr as <-; discriminate Hst).
  destruct (compare_call _ _ _) as [e|[|]] eqn:Hc; simpl in Hr;
    try (injection Hr as <-; discriminate Hst).
  rewrite userForToken_without_password in Hr.
  destruct (generateTokens _ _) as [a r] eqn:Hg. simpl in Hr.
  destruct (store_update _ _ _ _) as [e|[n us]]; simpl in Hr;
    injection Hr as <-; [discriminate Hst|].
  unfold findOne_call in Hf. unfold compare_call in Hc.
  destruct (get req "password") as [| | | |p] eqn:Hp; try done.
  destruct (get u "password") as [| | | |h] eqn:Hh; try done.
  exists u, p, h. rewrite Hg. simpl.
  destruct (get req "email"); try done; injection Hf as Hf;
    injection Hc as Hc; done.
Qed.

(** X6. [login] changes no value of any row other than the one under
    [refresh_token], adds and removes no row, and when it does not answer
    200 it leaves the world as it was. *)
Theorem login_writes_only_refresh_token (req : obj) (w : world) :
  let r := serve (login req) w in
  (∀ k, k ≠ "refresh_token" →
        map (fun u => get u k) (users (world_of r))
        = map (fun u => get u k) (users w)) ∧
  (∀ resp, response_of r = Some resp → status resp ≠ 200 → world_of r = w).
Proof.
  unfold handle, login. simpl.
  destruct (findOne_call _ _) as [e|[u|]]; simpl; try done.
  destruct (compare_call _ _ _) as [e|[|]]; simpl; try done.
  destruct (generateTokens _ _) as [a r]. simpl.
  unfold store_update.
  destruct (get u "id"); simpl; try done;
    (split; [|by intros resp [= <-] H]);
    intros k Hk; rewrite map_map; apply map_ext; intros u';
    apply update_row_other_key; by apply lookup_singleton_ne.
Qed.

(** *** The table under [create] and [update] *)

Lemma assignable_singleton (k : string) (v : value) :
  is_attribute' k = true → v ≠ VUndef →
  assignable attributes {[ k := v ]} = {[ k := v ]}.
Proof.
  intros Ha Hv. unfold assignable. rewrite map_filter_singleton.
  by rewrite decide_True.
Qed.

Lemma find_by_map_update (values : obj) (id : value) (k : string) (v : value)
    (us : list obj) :
  values !! k = None →
  find_by k v (map (update_row' values id) us)
  = update_row' values id <$> find_by k v us.
Proof.
  intros Hk. unfold find_by. induction us as [|u us IH]; simpl; [done|].
  rewrite (update_row_other_key attributes values id u k Hk).
  destruct (bool_decide (get u k = v)); [done|]. exact IH.
Qed.




(** *** [socialLogin] *)

(** X7. A social login with the email of an existing row, whatever that
    row's password, is answered 200 with tokens signed from that row, and
    the refresh token is written to the rows with its id; no password is
    compared on the way. *)
Theorem socialLogin_existing_account (req : obj) (w : world) (u : obj) :
  get req "email" ≠ VUndef →
  find_by "email" (get req "email") (users w) = Some u →
  get u "id" ≠ VUndef →
  let r := serve (socialLogin req) w in
  let tokens := generateTokens (clock w) (userForToken u) in
  outcome_of r = Resolved ∧
  response_of r = Some (Response 200 (login_body tokens.1 tokens.2)) ∧
  existsb is_compare (trace_of r) = false ∧
  users (world_of r)
  = map (update_row' {[ "refreshToken" := VStr tokens.2 ]} (get u "id"))
        (users w).
Proof.
  intros He Hf Hid r tokens. subst r tokens.
  unfold handle, socialLogin. simpl.
  unfold findOrCreate_call, findOne_call.
  destruct (get req "email") eqn:E; try done; rewrite Hf; simpl;
    destruct (generateTokens _ _) as [a rt]; simpl;
    unfold store_update; destruct (get u "id"); done.
Qed.


(** *** [refreshToken] *)

Local Abbreviation run_verified :=
  (refreshToken_run_verified attributes defaults bcrypt_hash bcrypt_compare
                             jwt_verify generateTokens).
Local Abbreviation run_falsy :=
  (refreshToken_run_falsy attributes defaults bcrypt_hash bcrypt_compare
                          jwt_verify generateTokens).

Lemma findByPk_call_some (id : value) (us : list obj) (u : obj) :
  findByPk_call id us = Some u →
  id ≠ VUndef ∧ find_by "id" id us = Some u ∧ get u "id" = id.
Proof.
  unfold findByPk_call. intros H.
  assert (find_by "id" id us = Some u) as Hf by (by destruct id).
  split; [by destruct id|]. split; [done|].
  unfold find_by in Hf. apply List.find_some in Hf as [_ Hf].
  by apply bool_decide_eq_true_1 in Hf.
Qed.

(** X9. [refreshToken] answers 200 only when the presented token verifies
    and is, to the byte, the value the row with the token's id holds under
    [refreshToken]. *)
Theorem refresh_success_requires_match (req : obj) (w : world)
    (resp : response) :
  response_of (serve (refreshToken req) w) = Some resp →
  status resp = 200 →
  ∃ (t : string) (payload u : obj),
    get req "refreshToken" = VStr t ∧
    jwt_verify (clock w) t = Some payload ∧
    findByPk_call (get payload "id") (users w) = Some u ∧
    get u "refreshToken" = VStr t.
Proof.
  intros Hr Hst.
  destruct (truthy (get req "refreshToken")) eqn:Ht.
  - destruct (verify_call jwt_verify (clock w) (get req "refreshToken"))
      as [e|payload] eqn:Hc.
    + unfold handle, refreshToken in Hr. rewrite Ht in Hr. simpl in Hr.
      rewrite Hc in Hr. simpl in Hr. injection Hr as <-. discriminate Hst.
    + apply verify_call_ok in Hc as (t & Hb & Hne & Hv).
      rewrite (run_verified req w t payload Hb Hne Hv) in Hr.
      case_bool_decide as Hm;
        destruct (store_update _ _ _ _) as [e|[n us]]; simpl in Hr;
        injection Hr as <-; try discriminate Hst.
      destruct (findByPk_call _ _) as [u|] eqn:Hu.
      * exists t, payload, u. repeat split; done.
      * discriminate Hm.
  - rewrite (run_falsy req w Ht) in Hr. simpl in Hr.
    injection Hr as <-. discriminate Hst.
Qed.

(** The run of a refresh whose token is the stored one. *)
Lemma refresh_rotation_run (req : obj) (w : world) (t : string)
    (payload u : obj) :
  is_attribute' "refreshToken" = true →
  get req "refreshToken" = VStr t →
  t ≠ "" →
  jwt_verify (clock w) t = Some payload →
  findByPk_call (get payload "id") (users w) = Some u →
  get u "refreshToken" = VStr t →
  let r := serve (refreshToken req) w in
  let id := get payload "id" in
  let tokens := generateTokens (clock w) payload in
  let rotate (u' : obj) : obj :=
    if bool_decide (get u' "id" = id)
    then <["refreshToken" := VStr tokens.2]> u' else u' in
  response_of r = Some (Response 200 (pair_body tokens)) ∧
  users (world_of r) = map rotate (users w) ∧
  findByPk_call id (users (world_of r))
  = Some (<["refreshToken" := VStr tokens.2]> u).
Proof.
  intros Ha Hb Hne Hv Hu Hs r id tokens rotate. subst r.
  rewrite (run_verified req w t payload Hb Hne Hv). fold id tokens.
  fold id in Hu. rewrite Hu, Hs.
  rewrite bool_decide_eq_false_2 by (intros H; by apply H).
  destruct (findByPk_call_some _ _ _ Hu) as (Hid & Hf & Huid).
  fold id in Hid, Hf, Huid.
  assert (store_update attributes {[ "refreshToken" := VStr tokens.2 ]} id
            (users w)
          = inr (List.length
                   (List.filter (fun u => bool_decide (get u "id" = id))
                                (users w)),
                 map rotate (users w))) as Hup.
  { unfold store_update. destruct id; try done; f_equal; f_equal;
      apply map_ext; intros u'; unfold update_row, rotate;
      rewrite assignable_singleton by done;
      by rewrite <- insert_union_singleton_l. }
  rewrite Hup. simpl. split; [done|]. split; [done|].
  assert (map rotate (users w)
          = map (update_row' {[ "refreshToken" := VStr tokens.2 ]} id)
                (users w)) as ->.
  { apply map_ext. intros u'. unfold update_row, rotate.
    rewrite assignable_singleton by done.
    by rewrite <- insert_union_singleton_l. }
  unfold findByPk_call.
  assert (find_by "id" id
            (map (update_row' {[ "refreshToken" := VStr tokens.2 ]} id)
                 (users w))
          = Some (<["refreshToken" := VStr tokens.2]> u)) as Hf'.
  { rewrite find_by_map_update by done. rewrite Hf. simpl.
    unfold update_row. rewrite Huid, bool_decide_eq_true_2 by done.
    rewrite assignable_singleton by done.
    by rewrite <- insert_union_singleton_l. }
  by destruct id.
Qed.

(** X10. A successful refresh rotates: the rows with the token's id get the
    new refresh token under [refreshToken] and nothing else changes, so the
    row found by that id now holds the token just returned. *)
Theorem refresh_rotates_stored_token (req : obj) (w : world) (t : string)
    (payload u : obj) :
  is_attribute' "refreshToken" = true →
  get req "refreshToken" = VStr t →
  t ≠ "" →
  jwt_verify (clock w) t = Some payload →
  findByPk_call (get payload "id") (users w) = Some u →
  get u "refreshToken" = VStr t →
  let r := serve (refreshToken req) w in
  let id := get payload "id" in
  let tokens := generateTokens (clock w) payload in
  let rotate (u' : obj) : obj :=
    if bool_decide (get u' "id" = id)
    then <["refreshToken" := VStr tokens.2]> u' else u' in
  response_of r = Some (Response 200 (pair_body tokens)) ∧
  users (world_of r) = map rotate (users w) ∧
  findByPk_call id (users (world_of r))
  = Some (<["refreshToken" := VStr tokens.2]> u).
Proof. apply refresh_rotation_run. Qed.

(** X11. Once a refresh token has been exchanged for a different one, it
    is refused: presented again, at any later time at which it still
    verifies for the same id, it is answered 403 "Invalid refresh
    token". *)
Theorem replay_after_rotation_refused (req : obj) (w : world) (t : string)
    (payload u : obj) (later : Z) (payload' : obj) :
  is_attribute' "refreshToken" = true →
  get req "refreshToken" = VStr t →
  t ≠ "" →
  jwt_verify (clock w) t = Some payload →
  findByPk_call (get payload "id") (users w) = Some u →
  get u "refreshToken" = VStr t →
  (generateTokens (clock w) payload).2 ≠ t →
  jwt_verify later t = Some payload' →
  get payload' "id" = get payload "id" →
  let w1 := world_of (serve (refreshToken req) w) in
  response_of (serve (refreshToken req) (at_time later w1))
  = Some (Response 403 (message_body "Invalid refresh token")).
Proof.
  intros Ha Hb Hne Hv Hu Hs Hnew Hv' Hid w1.
  destruct (refresh_rotation_run req w t payload u Ha Hb Hne Hv Hu Hs)
    as (_ & _ & Hf).
  fold w1 in Hf.
  rewrite (run_verified req (at_time later w1) t payload' Hb Hne Hv').
  simpl. rewrite Hid, Hf.
  rewrite bool_decide_eq_true_2.
  - by destruct (store_update _ _ _ _) as [e|[n us]].
  - unfold get. rewrite lookup_insert_eq. simpl. congruence.
Qed.

Local Abbreviation interleave' :=
  (interleave attributes defaults bcrypt_hash bcrypt_compare jwt_verify
              generateTokens).

(** X12. Two refreshes in flight with the same token, the stored one: when
    both have read the row before either writes, both are answered 200 with
    a new pair; the comparison with the stored token does not tell them
    apart. *)
Theorem concurrent_refresh_both_succeed (req : obj) (w : world) (t : string)
    (payload u : obj) :
  get req "refreshToken" = VStr t →
  t ≠ "" →
  jwt_verify (clock w) t = Some payload →
  findByPk_call (get payload "id") (users w) = Some u →
  get u "refreshToken" = VStr t →
  let out := interleave' both_read_first (spawn (refreshToken req))
                         (spawn (refreshToken req)) w in
  let tokens := generateTokens (clock w) payload in
  code out.1.1 = Ret tt ∧ code out.1.2 = Ret tt ∧
  sent_of out.1.1 = Some (Response 200 (pair_body tokens)) ∧
  sent_of out.1.2 = Some (Response 200 (pair_body tokens)).
Proof.
  intros Hb Hne Hv Hu Hs out tokens. subst out tokens.
  assert (truthy (VStr t) = true) as Ht.
  { simpl. destruct (String.eqb_spec t ""); done. }
  assert (bool_decide (get u "refreshToken" ≠ VStr t) = false) as Hm.
  { apply bool_decide_eq_false_2. intros H. by apply H. }
  destruct (generateTokens (clock w) payload) as [a r] eqn:Hg.
  destruct (get payload "id") as [| |b|n|i] eqn:Hid; try done;
    unfold both_read_first, interleave, step, spawn, refreshToken;
    rewrite Hb, Ht;
    repeat (simpl;
            unfold verify_call, store_update;
            rewrite ?Ht, ?Hv, ?Hid, ?Hu, ?Hm, ?Hg);
    done.
Qed.

(** *** The normalization of [register] *)

Lemma lower_char_idem (c : ascii) : lower_char (lower_char c) = lower_char c.
Proof. destruct c as [[] [] [] [] [] [] [] []]; reflexivity. Qed.

Lemma is_white_space_lower (c : ascii) :
  is_white_space (lower_char c) = is_white_space c.
Proof. destruct c as [[] [] [] [] [] [] [] []]; reflexivity. Qed.

Lemma toLowerCase_idem (s : string) :
  toLowerCase (toLowerCase s) = toLowerCase s.
Proof.
  induction s as [|c s IH]; simpl; [done|]. by rewrite lower_char_idem, IH.
Qed.

Lemma trimStart_toLowerCase (s : string) :
  trimStart (toLowerCase s) = toLowerCase (trimStart s).
Proof.
  induction s as [|c s IH]; simpl; [done|].
  rewrite is_white_space_lower. by destruct (is_white_space c).
Qed.

Lemma trimEnd_toLowerCase (s : string) :
  trimEnd (toLowerCase s) = toLowerCase (trimEnd s).
Proof.
  induction s as [|c s IH]; simpl; [done|].
  rewrite IH, is_white_space_lower.
  destruct (trimEnd s); simpl; [|done]. by destruct (is_white_space c).
Qed.

Lemma trimEnd_idem (s : string) : trimEnd (trimEnd s) = trimEnd s.
Proof.
  induction s as [|c s IH]; simpl; [done|].
  destruct (trimEnd s) as [|c' s'] eqn:E.
  - destruct (is_white_space c) eqn:Ec; simpl; [done|]. by rewrite Ec.
  - change (trimEnd (String c (String c' s')))
      with (match trimEnd (String c' s') with
            | EmptyString => if is_white_space c then EmptyString
                             else String c EmptyString
            | String a t => String c (String a t)
            end).
    by rewrite IH.
Qed.

(** What [trimStart] leaves is empty or starts with a visible character. *)
Lemma trimStart_head (s : string) :
  trimStart s = EmptyString ∨
  ∃ c s', trimStart s = String c s' ∧ is_white_space c = false.
Proof.
  induction s as [|c s IH]; simpl; [by left|].
  destruct (is_white_space c) eqn:Ec; [exact IH|]. right. by exists c, s.
Qed.

Lemma trimStart_trimEnd_head (c : ascii) (s : string) :
  is_white_space c = false →
  trimStart (trimEnd (String c s)) = trimEnd (String c s).
Proof.
  intros Hc. simpl. destruct (trimEnd s); rewrite ?Hc; simpl; by rewrite Hc.
Qed.

Lemma trim_idem (s : string) : trim (trim s) = trim s.
Proof.
  unfold trim. destruct (trimStart_head s) as [->|(c & s' & -> & Hc)];
    [done|].
  by rewrite trimStart_trimEnd_head, trimEnd_idem.
Qed.

(** X13. The normalization [register] applies to the email is idempotent:
    an address that is already trimmed and lower-cased by it, such as the
    email of a row [register] created, is normalized to itself. *)
Theorem normalize_email_idempotent (s : string) :
  normalize_email (VStr (toLowerCase (trim s))) = Ret (toLowerCase (trim s)).
Proof.
  simpl. f_equal. unfold trim at 1.
  rewrite trimStart_toLowerCase, trimEnd_toLowerCase, toLowerCase_idem.
  fold (trim (trim s)). by rewrite trim_idem.
Qed.

End Further.

(** ** The further properties on concrete requests *)

(** A registration without a password is not answered. *)
Lemma register_rejects_without_answer_witness :
  (∀ p, get Toy.no_password_given "password" ≠ VStr p) ∧
  let r := Toy.serve (register Toy.no_password_given) Toy.registered in
  (∃ err, outcome_of r = Rejected err) ∧
  response_of r = None ∧
  world_of r = Toy.registered ∧
  existsb is_lookup (trace_of r) = false ∧
  existsb is_write (trace_of r) = false.
Proof.
  assert (∀ p, get Toy.no_password_given "password" ≠ VStr p) as H
    by (intros p; vm_compute; discriminate).
  split; [exact H|].
  exact (register_rejects_without_answer
           Toy.attributes Toy.defaults Toy.bcrypt_hash Toy.bcrypt_compare
           Toy.jwt_verify Toy.generateTokens
           Toy.no_password_given Toy.registered (or_intror H)).
Defined.

(** Ann's registration is answered once. *)
Lemma register_answers_once_witness :
  (get Toy.ann "email" = VStr " A@B.com " ∧
   get Toy.ann "password" = VStr "secret123") ∧
  let r := Toy.serve (register Toy.ann) Toy.empty_world in
  outcome_of r = Resolved ∧
  sends (trace_of r) = 1%nat ∧
  ∃ resp,
    response_of r = Some resp ∧
    (status resp = 201 ∨ status resp = 400 ∨ status resp = 500) ∧
    (status resp ≠ 201 → users (world_of r) = users Toy.empty_world).
Proof.
  assert (get Toy.ann "email" = VStr " A@B.com ") as H1
    by (vm_compute; reflexivity).
  assert (get Toy.ann "password" = VStr "secret123") as H2
    by (vm_compute; reflexivity).
  split; [by split|].
  exact (register_answers_once
           Toy.attributes Toy.defaults Toy.bcrypt_hash Toy.bcrypt_compare
           Toy.jwt_verify Toy.generateTokens
           Toy.ann Toy.empty_world " A@B.com " "secret123" H1 H2).
Defined.

(** The row Ann's registration creates. *)
Lemma register_created_row_witness :
  (is_attribute Toy.attributes "email" = true ∧
   is_attribute Toy.attributes "password" = true ∧
   get Toy.ann "email" = VStr " A@B.com " ∧
   get Toy.ann "password" = VStr "secret123" ∧
   response_of (Toy.serve (register Toy.ann) Toy.empty_world)
     = Some (Response 201 (register_body (delete "password" Toy.ann_row)))) ∧
  ∃ row,
    find_by "email" (VStr (toLowerCase (trim " A@B.com ")))
            (users Toy.empty_world) = None ∧
    users (world_of (Toy.serve (register Toy.ann) Toy.empty_world))
      = (users Toy.empty_world ++ [row])%list ∧
    get row "email" = VStr (toLowerCase (trim " A@B.com ")) ∧
    get row "password"
      = VStr (Toy.bcrypt_hash (rng Toy.empty_world) "secret123") ∧
    Response 201 (register_body (delete "password" Toy.ann_row))
      = Response 201 (register_body (delete "password" row)).
Proof.
  assert (is_attribute Toy.attributes "email" = true) as H1
    by (vm_compute; reflexivity).
  assert (is_attribute Toy.attributes "password" = true) as H2
    by (vm_compute; reflexivity).
  assert (get Toy.ann "email" = VStr " A@B.com ") as H3
    by (vm_compute; reflexivity).
  assert (get Toy.ann "password" = VStr "secret123") as H4
    by (vm_compute; reflexivity).
  assert (response_of (Toy.serve (register Toy.ann) Toy.empty_world)
          = Some (Response 201
                    (register_body (delete "password" Toy.ann_row)))) as H5
    by (vm_compute; reflexivity).
  split; [repeat split; assumption|].
  exact (register_created_row
           Toy.attributes Toy.defaults Toy.bcrypt_hash Toy.bcrypt_compare
           Toy.jwt_verify Toy.generateTokens
           Toy.ann Toy.empty_world " A@B.com " "secret123"
           (Response 201 (register_body (delete "password" Toy.ann_row)))
           H1 H2 H3 H4 H5 eq_refl).
Defined.

(** Ann's login with the right password. *)
Lemma login_success_sound_witness :
  response_of (Toy.serve (login Toy.ann_login) (at_time 2000 Toy.registered))
    = Some (Response 200 (login_body Toy.ann_access Toy.ann_refresh)) ∧
  ∃ (u : obj) (p h : string),
    find_by "email" (get Toy.ann_login "email")
            (users (at_time 2000 Toy.registered)) = Some u ∧
    get Toy.ann_login "password" = VStr p ∧
    get u "password" = VStr h ∧
    Toy.bcrypt_compare p h = true ∧
    let tokens := Toy.generateTokens (clock (at_time 2000 Toy.registered))
                                     (userForToken u) in
    Response 200 (login_body Toy.ann_access Toy.ann_refresh)
      = Response 200 (login_body tokens.1 tokens.2).
Proof.
  assert (response_of (Toy.serve (login Toy.ann_login)
                                 (at_time 2000 Toy.registered))
          = Some (Response 200 (login_body Toy.ann_access Toy.ann_refresh)))
    as H by (vm_compute; reflexivity).
  split; [exact H|].
  exact (login_success_sound
           Toy.attributes Toy.defaults Toy.bcrypt_hash Toy.bcrypt_compare
           Toy.jwt_verify Toy.generateTokens
           Toy.ann_login (at_time 2000 Toy.registered)
           (Response 200 (login_body Toy.ann_access Toy.ann_refresh))
           H eq_refl).
Defined.

(** A login with a wrong password leaves Ann's table as it was, and a
    login in the snake-case model leaves every role as it was. *)
Lemma login_writes_only_refresh_token_witness :
  ("role" ≠ "refresh_token" ∧
   response_of (Toy.serve (login Toy.ann_wrong_password) Toy.registered)
     = Some (Response 401 (error_body "Invalid credentials")) ∧
   status (Response 401 (error_body "Invalid credentials")) ≠ 200) ∧
  map (fun u => get u "role")
      (users (world_of (Toy.serve_snake (login Toy.ann_login)
                                        Toy.registered_snake)))
    = map (fun u => get u "role") (users Toy.registered_snake) ∧
  world_of (Toy.serve (login Toy.ann_wrong_password) Toy.registered)
    = Toy.registered.
Proof.
  assert ("role" ≠ "refresh_token") as H1 by discriminate.
  assert (response_of (Toy.serve (login Toy.ann_wrong_password)
                                 Toy.registered)
          = Some (Response 401 (error_body "Invalid credentials"))) as H2
    by (vm_compute; reflexivity).
  assert (status (Response 401 (error_body "Invalid credentials")) ≠ 200)
    as H3 by discriminate.
  split; [by repeat split|]. split.
  - exact (proj1 (login_writes_only_refresh_token
                    Toy.attributes_snake Toy.defaults Toy.bcrypt_hash
                    Toy.bcrypt_compare Toy.jwt_verify Toy.generateTokens
                    Toy.ann_login Toy.registered_snake) "role" H1).
  - exact (proj2 (login_writes_only_refresh_token
                    Toy.attributes Toy.defaults Toy.bcrypt_hash
                    Toy.bcrypt_compare Toy.jwt_verify Toy.generateTokens
                    Toy.ann_wrong_password Toy.registered) _ H2 H3).
Defined.

(** Eve signs in through social login with Ann's address and gets tokens
    for Ann's row. *)
Lemma socialLogin_existing_account_witness :
  (get Toy.eve_as_ann "email" ≠ VUndef ∧
   find_by "email" (get Toy.eve_as_ann "email") (users Toy.registered)
     = Some Toy.ann_row ∧
   get Toy.ann_row "id" ≠ VUndef) ∧
  let r := Toy.serve (socialLogin Toy.eve_as_ann) Toy.registered in
  let tokens := Toy.generateTokens (clock Toy.registered)
                                   (userForToken Toy.ann_row) in
  outcome_of r = Resolved ∧
  response_of r = Some (Response 200 (login_body tokens.1 tokens.2)) ∧
  existsb is_compare (trace_of r) = false ∧
  users (world_of r)
  = map (update_row Toy.attributes {[ "refreshToken" := VStr tokens.2 ]}
                    (get Toy.ann_row "id"))
        (users Toy.registered).
Proof.
  assert (get Toy.eve_as_ann "email" ≠ VUndef) as H1
    by (vm_compute; discriminate).
  assert (find_by "email" (get Toy.eve_as_ann "email") (users Toy.registered)
          = Some Toy.ann_row) as H2 by (vm_compute; reflexivity).
  assert (get Toy.ann_row "id" ≠ VUndef) as H3
    by (vm_compute; discriminate).
  split; [by repeat split|].
  exact (socialLogin_existing_account
           Toy.attributes Toy.defaults Toy.bcrypt_hash Toy.bcrypt_compare
           Toy.jwt_verify Toy.generateTokens
           Toy.eve_as_ann Toy.registered Toy.ann_row H1 H2 H3).
Defined.


(** Bob's first refresh succeeds, and his token was the stored one. *)
Lemma refresh_success_requires_match_witness :
  response_of (Toy.serve (refreshToken (Toy.present Toy.bob_refresh1))
                         Toy.bob_at_2000)
    = Some (Response 200 (pair_body (Toy.bob_access2, Toy.bob_refresh2))) ∧
  ∃ (t : string) (payload u : obj),
    get (Toy.present Toy.bob_refresh1) "refreshToken" = VStr t ∧
    Toy.jwt_verify (clock Toy.bob_at_2000) t = Some payload ∧
    findByPk_call (get payload "id") (users Toy.bob_at_2000) = Some u ∧
    get u "refreshToken" = VStr t.
Proof.
  assert (response_of (Toy.serve (refreshToken (Toy.present Toy.bob_refresh1))
                                 Toy.bob_at_2000)
          = Some (Response 200
                    (pair_body (Toy.bob_access2, Toy.bob_refresh2)))) as H
    by (vm_compute; reflexivity).
  split; [exact H|].
  exact (refresh_success_requires_match
           Toy.attributes Toy.defaults Toy.bcrypt_hash Toy.bcrypt_compare
           Toy.jwt_verify Toy.generateTokens
           (Toy.present Toy.bob_refresh1) Toy.bob_at_2000
           (Response 200 (pair_body (Toy.bob_access2, Toy.bob_refresh2)))
           H eq_refl).
Defined.

(** The hypotheses of a refresh with the stored token, for Bob at 2000. *)
Lemma bob_presents_stored_token :
  is_attribute Toy.attributes "refreshToken" = true ∧
  get (Toy.present Toy.bob_refresh1) "refreshToken" = VStr Toy.bob_refresh1 ∧
  Toy.bob_refresh1 ≠ "" ∧
  Toy.jwt_verify (clock Toy.bob_at_2000) Toy.bob_refresh1
    = Some Toy.bob_payload ∧
  findByPk_call (get Toy.bob_payload "id") (users Toy.bob_at_2000)
    = Some Toy.bob_row ∧
  get Toy.bob_row "refreshToken" = VStr Toy.bob_refresh1.
Proof.
  repeat split; try (vm_compute; reflexivity). discriminate.
Defined.

(** Bob's first refresh stores the second token on his row. *)
Lemma refresh_rotates_stored_token_witness :
  let r := Toy.serve (refreshToken (Toy.present Toy.bob_refresh1))
                     Toy.bob_at_2000 in
  let id := get Toy.bob_payload "id" in
  let tokens := Toy.generateTokens (clock Toy.bob_at_2000) Toy.bob_payload in
  let rotate (u' : obj) : obj :=
    if bool_decide (get u' "id" = id)
    then <["refreshToken" := VStr tokens.2]> u' else u' in
  response_of r = Some (Response 200 (pair_body tokens)) ∧
  users (world_of r) = map rotate (users Toy.bob_at_2000) ∧
  findByPk_call id (users (world_of r))
  = Some (<["refreshToken" := VStr tokens.2]> Toy.bob_row).
Proof.
  destruct bob_presents_stored_token as (H1 & H2 & H3 & H4 & H5 & H6).
  exact (refresh_rotates_stored_token
           Toy.attributes Toy.defaults Toy.bcrypt_hash Toy.bcrypt_compare
           Toy.jwt_verify Toy.generateTokens
           (Toy.present Toy.bob_refresh1) Toy.bob_at_2000 Toy.bob_refresh1
           Toy.bob_payload Toy.bob_row H1 H2 H3 H4 H5 H6).
Defined.

(** Bob's first token, presented again at 3000, is refused. *)
Lemma replay_after_rotation_refused_witness :
  ((Toy.generateTokens (clock Toy.bob_at_2000) Toy.bob_payload).2
     ≠ Toy.bob_refresh1 ∧
   Toy.jwt_verify 3000 Toy.bob_refresh1 = Some Toy.bob_payload) ∧
  let w1 := world_of (Toy.serve (refreshToken (Toy.present Toy.bob_refresh1))
                                Toy.bob_at_2000) in
  response_of (Toy.serve (refreshToken (Toy.present Toy.bob_refresh1))
                         (at_time 3000 w1))
  = Some (Response 403 (message_body "Invalid refresh token")).
Proof.
  destruct bob_presents_stored_token as (H1 & H2 & H3 & H4 & H5 & H6).
  assert ((Toy.generateTokens (clock Toy.bob_at_2000) Toy.bob_payload).2
          ≠ Toy.bob_refresh1) as H7 by (vm_compute; discriminate).
  assert (Toy.jwt_verify 3000 Toy.bob_refresh1 = Some Toy.bob_payload) as H8
    by (vm_compute; reflexivity).
  split; [by split|].
  exact (replay_after_rotation_refused
           Toy.attributes Toy.defaults Toy.bcrypt_hash Toy.bcrypt_compare
           Toy.jwt_verify Toy.generateTokens
           (Toy.present Toy.bob_refresh1) Toy.bob_at_2000 Toy.bob_refresh1
           Toy.bob_payload Toy.bob_row 3000 Toy.bob_payload
           H1 H2 H3 H4 H5 H6 H7 H8 eq_refl).
Defined.

(** Two refreshes of Bob's first token in flight together both succeed. *)
Lemma concurrent_refresh_both_succeed_witness :
  let out := Toy.interleave both_read_first
               (spawn (refreshToken (Toy.present Toy.bob_refresh1)))
               (spawn (refreshToken (Toy.present Toy.bob_refresh1)))
               Toy.bob_at_2000 in
  let tokens := Toy.generateTokens (clock Toy.bob_at_2000) Toy.bob_payload in
  code out.1.1 = Ret tt ∧ code out.1.2 = Ret tt ∧
  sent_of out.1.1 = Some (Response 200 (pair_body tokens)) ∧
  sent_of out.1.2 = Some (Response 200 (pair_body tokens)).
Proof.
  destruct bob_presents_stored_token as (H1 & H2 & H3 & H4 & H5 & H6).
  exact (concurrent_refresh_both_succeed
           Toy.attributes Toy.defaults Toy.bcrypt_hash Toy.bcrypt_compare
           Toy.jwt_verify Toy.generateTokens
           (Toy.present Toy.bob_refresh1) Toy.bob_at_2000 Toy.bob_refresh1
           Toy.bob_payload Toy.bob_row H2 H3 H4 H5 H6).
Defined.
